(** * Node quantization configuration: candidate synthesis and orchestration

    A shallow embedding of
    [model_compression_toolkit/core/common/quantization/set_node_quantization_config.py]
    and the properties of the candidate lists it attaches to graph nodes. *)

From Stdlib Require Import ZArith String List Sorting.Sorted.
From stdpp Require Import base gmap list strings.

Local Open Scope Z_scope.

(** ** Exceptions and the state-and-exception monad *)

(** The exceptions the module can raise.  [CriticalError] is what
    [Logger.critical] raises in this module; [SelectionError] is the fatal
    error of a selector function of the modules imported at lines 28-31.
    [DanglingReference] is not a Python exception: it is the outcome of
    dereferencing a location outside the store, which no Python reference
    can be. *)
Inductive exn : Type :=
| AssertionError
| TypeError
| IndexError
| CriticalError (msg : string)
| SelectionError (msg : string)
| DanglingReference.

Inductive outcome (A : Type) : Type :=
| Ok (a : A)
| Raise (e : exn).
Arguments Ok {A} a.
Arguments Raise {A} e.

(** A computation over a mutable state [S]; the state survives a raise, as
    the Python heap does. *)
Definition M (S A : Type) : Type := S -> outcome A * S.

Definition ret {S A} (a : A) : M S A := fun s => (Ok a, s).

Definition bind {S A B} (m : M S A) (k : A -> M S B) : M S B :=
  fun s => match m s with
           | (Ok a, s') => k a s'
           | (Raise e, s') => (Raise e, s')
           end.

Definition raise {S A} (e : exn) : M S A := fun s => (Raise e, s).

Definition lift {S A} (o : outcome A) : M S A := fun s => (o, s).

(** The value of an outcome, or [d] after a raise. *)
Definition value_or {A} (d : A) (o : outcome A) : A :=
  match o with Ok a => a | Raise _ => d end.

(** Modelled from the spec: what a selector function answers (the selectors
    are not in this module).  It returns a value, or its lookup fails
    fatally with a descriptive message. *)
Inductive selection (A : Type) : Type :=
| Selected (a : A)
| NoSelection (msg : string).
Arguments Selected {A} a.
Arguments NoSelection {A} msg.

(** A call of a selector: a failed lookup raises. *)
Definition select {A} (s : selection A) : outcome A :=
  match s with
  | Selected a => Ok a
  | NoSelection msg => Raise (SelectionError msg)
  end.

Notation "'let*' x ':=' m 'in' k" := (bind m (fun x => k))
  (at level 10, x name, m at level 200, k at level 200, only parsing).

(** ** Data model *)

(** A quantization-method identifier, a bound function and an operator type
    are known to this module by name only. *)
Definition QuantizationMethod := string.
Definition Callable := string.
Definition NodeType := string.

(** Objects of class [QuantizationConfig] live in a store; a reference to
    one is its index. *)
Abbreviation loc := nat.

Module AttributeQuantizationConfig.
(** Modelled from the spec: the weight-quantization sub-config of one
    attribute (class not in this module): method, bit-width, per-channel
    flag and enable flag. *)
Record t : Type := Build {
  weights_quantization_method : QuantizationMethod;
  weights_n_bits : Z;
  weights_per_channel_threshold : bool;
  enable_weights_quantization : bool
}.
End AttributeQuantizationConfig.

Module OpQuantizationConfig.
(** Modelled from the spec: one legal configuration option of the target
    platform (class not in this module): a dict from attribute name to
    its sub-config, the fallback sub-config, and the activation method,
    bit-width and enable flag. *)
Record t : Type := Build {
  attr_weights_configs_mapping : gmap string AttributeQuantizationConfig.t;
  default_weight_attr_config : AttributeQuantizationConfig.t;
  activation_quantization_method : QuantizationMethod;
  activation_n_bits : Z;
  enable_activation_quantization : bool
}.
End OpQuantizationConfig.

Module QuantizationConfigOptions.
(** Modelled from the spec: an ordered list of options with one designated
    base config (class not in this module); the base config is one of the
    listed options. *)
Record t : Type := Build {
  quantization_config_list : list OpQuantizationConfig.t;
  base_config : OpQuantizationConfig.t;
  base_config_listed : base_config ∈ quantization_config_list
}.
End QuantizationConfigOptions.

Module NodeWeightsQuantizationConfig.
(** Modelled from the spec: the resolved weights config of a candidate
    (class not in this module).  It carries the bound functions, the
    channel axis and the values resolved from the attribute sub-config.
    [qc] records which policy object the constructor was handed; this module
    never reads or writes a policy object through it. *)
Record t : Type := Build {
  qc : loc;
  weights_quantization_fn : Callable;
  weights_quantization_params_fn : Callable;
  weights_channels_axis : option Z;
  weights_quantization_method : QuantizationMethod;
  weights_n_bits : Z;
  weights_per_channel_threshold : bool;
  enable_weights_quantization : bool
}.
End NodeWeightsQuantizationConfig.

Module NodeActivationQuantizationConfig.
(** Modelled from the spec: the resolved activation config of a candidate
    (class not in this module). *)
Record t : Type := Build {
  qc : loc;
  activation_quantization_fn : Callable;
  activation_quantization_params_fn : Callable;
  activation_quantization_method : QuantizationMethod;
  activation_n_bits : Z;
  enable_activation_quantization : bool
}.
End NodeActivationQuantizationConfig.

Module CandidateNodeQuantizationConfig.
Record t : Type := Build {
  weights_quantization_cfg : NodeWeightsQuantizationConfig.t;
  activation_quantization_cfg : NodeActivationQuantizationConfig.t
}.

(** Modelled from the spec: the constructor of the candidate value object
    (class not in this module).  It builds the two sub-configs afresh,
    copying the resolved values out of [op_cfg] and [weights_cfg], and
    records in each the policy object [qc] it was handed. *)
Definition init (qc : loc) (op_cfg : OpQuantizationConfig.t)
    (activation_quantization_fn activation_quantization_params_fn
     weights_quantization_fn weights_quantization_params_fn : Callable)
    (weights_channels_axis : option Z)
    (weights_cfg : AttributeQuantizationConfig.t) : t :=
  {| weights_quantization_cfg :=
       {| NodeWeightsQuantizationConfig.qc := qc;
          NodeWeightsQuantizationConfig.weights_quantization_fn :=
            weights_quantization_fn;
          NodeWeightsQuantizationConfig.weights_quantization_params_fn :=
            weights_quantization_params_fn;
          NodeWeightsQuantizationConfig.weights_channels_axis :=
            weights_channels_axis;
          NodeWeightsQuantizationConfig.weights_quantization_method :=
            AttributeQuantizationConfig.weights_quantization_method weights_cfg;
          NodeWeightsQuantizationConfig.weights_n_bits :=
            AttributeQuantizationConfig.weights_n_bits weights_cfg;
          NodeWeightsQuantizationConfig.weights_per_channel_threshold :=
            AttributeQuantizationConfig.weights_per_channel_threshold weights_cfg;
          NodeWeightsQuantizationConfig.enable_weights_quantization :=
            AttributeQuantizationConfig.enable_weights_quantization weights_cfg |};
     activation_quantization_cfg :=
       {| NodeActivationQuantizationConfig.qc := qc;
          NodeActivationQuantizationConfig.activation_quantization_fn :=
            activation_quantization_fn;
          NodeActivationQuantizationConfig.activation_quantization_params_fn :=
            activation_quantization_params_fn;
          NodeActivationQuantizationConfig.activation_quantization_method :=
            OpQuantizationConfig.activation_quantization_method op_cfg;
          NodeActivationQuantizationConfig.activation_n_bits :=
            OpQuantizationConfig.activation_n_bits op_cfg;
          NodeActivationQuantizationConfig.enable_activation_quantization :=
            OpQuantizationConfig.enable_activation_quantization op_cfg |} |}.
End CandidateNodeQuantizationConfig.

Abbreviation Candidate := CandidateNodeQuantizationConfig.t.

Module DefaultDict.
(** Modelled from the spec: a mapping that answers every key (class not in
    this module): with the value listed for the key, or else with its
    default value.  A Python [None] is [None]. *)
Record t (V : Type) : Type := Build {
  contents : gmap string V;
  default_value : option V
}.
Arguments Build {V} _ _.
Arguments contents {V} _.
Arguments default_value {V} _.

Definition get {V} (d : t V) (key : string) : option V :=
  match contents d !! key with
  | Some v => Some v
  | None => default_value d
  end.
End DefaultDict.

Module FrameworkInfo.
(** Modelled from the spec: the framework adapter (class not in this
    module): the kernel-channel mapping, whose sequences hold axis indices
    or [None], the kernel-attribute resolution and the activation quantizer
    dict. *)
Record t : Type := Build {
  kernel_channels_mapping : DefaultDict.t (list (option Z));
  get_kernel_op_attributes : NodeType -> list string;
  activation_quantizer_mapping : gmap QuantizationMethod Callable
}.
End FrameworkInfo.

(** Modelled from the spec: the target platform capabilities are the legal
    options per operator type (class not in this module). *)
Definition TargetPlatformCapabilities : Type :=
  gmap NodeType QuantizationConfigOptions.t.

Module BaseNode.
(** Modelled from the spec: a graph node (class not in this module) is the
    record of its type, its three structural queries and the mutable field
    this module fills. *)
Record t : Type := Build {
  type : NodeType;
  get_qco : TargetPlatformCapabilities -> QuantizationConfigOptions.t;
  has_weights_to_quantize : FrameworkInfo.t -> bool;
  get_has_activation : bool;
  candidates_quantization_cfg : list Candidate
}.

Definition set_candidates (node : t) (cs : list Candidate) : t :=
  {| type := type node;
     get_qco := get_qco node;
     has_weights_to_quantize := has_weights_to_quantize node;
     get_has_activation := get_has_activation node;
     candidates_quantization_cfg := cs |}.
End BaseNode.

Module Graph.
Record t : Type := Build {
  nodes : list BaseNode.t;
  fw_info : FrameworkInfo.t;
  tpc : TargetPlatformCapabilities
}.

Definition set_nodes (g : t) (ns : list BaseNode.t) : t :=
  {| nodes := ns; fw_info := fw_info g; tpc := tpc g |}.
End Graph.

(** ** Python primitives *)

(** Tuple comparison [a < b] on pairs of ints is lexicographic. *)
Definition tuple_lt (a b : Z * Z) : bool :=
  (a.1 <? b.1) || ((a.1 =? b.1) && (a.2 <? b.2)).

(** [list.sort(key=..., reverse=True)]: a stable sort into descending key
    order.  An element is inserted in front of the first element whose key is
    not greater than its own, so equal keys keep their input order. *)
Fixpoint insert_reverse {A} (key : A -> Z * Z) (x : A) (l : list A) : list A :=
  match l with
  | [] => [x]
  | y :: l' => if tuple_lt (key x) (key y)
               then y :: insert_reverse key x l'
               else x :: y :: l'
  end.

Definition sort_reverse {A} (key : A -> Z * Z) (l : list A) : list A :=
  foldr (insert_reverse key) [] l.

(** [Logger.critical(msg)].  Modelled from the spec: the logger is not in
    this module; an unknown method is fatal and aborts with the message. *)
Definition Logger_critical {A} (msg : string) : outcome A :=
  Raise (CriticalError msg).

Section Synthesis.

(** The policy class is opaque to this module: it is only passed on and
    deep-copied. *)
Context {QuantizationConfig : Type}.

(** The store of policy objects. *)
Local Abbreviation store := (list QuantizationConfig).

(** [copy.deepcopy(qc)]: a new object with the same contents. *)
Definition deepcopy (qc : loc) : M store loc :=
  fun h => match h !! qc with
           | Some v => (Ok (length h), h ++ [v])
           | None => (Raise DanglingReference, h)
           end.

(** The selector functions imported from [quantization_fn_selection] and
    [quantization_params_fn_selection].  The weights transform selector is
    tested against [None] at line 154, so its value may be a Python [None]. *)
Variable get_weights_quantization_fn :
  QuantizationMethod -> selection (option Callable).
Variable get_weights_quantization_params_fn :
  QuantizationMethod -> selection Callable.
Variable get_activation_quantization_params_fn :
  QuantizationMethod -> selection Callable.

(** [op_cfg.attr_weights_configs_mapping.get(kernel_attr,
    op_cfg.default_weight_attr_config)] *)
Definition resolve_weights_cfg (op_cfg : OpQuantizationConfig.t)
    (kernel_attr : string) : AttributeQuantizationConfig.t :=
  default (OpQuantizationConfig.default_weight_attr_config op_cfg)
          (OpQuantizationConfig.attr_weights_configs_mapping op_cfg !! kernel_attr).

Definition _create_node_single_candidate_qc (qc : loc)
    (fw_info : FrameworkInfo.t) (weight_channel_axis : option Z)
    (op_cfg : OpQuantizationConfig.t) (kernel_attr : string)
    : outcome Candidate :=
  let weights_cfg := resolve_weights_cfg op_cfg kernel_attr in
  match select (get_weights_quantization_fn
                  (AttributeQuantizationConfig.weights_quantization_method
                     weights_cfg)) with
  | Raise e => Raise e
  | Ok None =>
      Logger_critical
        ("Unknown quantization method for weights for quantizing attribute: "
           +:+ kernel_attr)
  | Ok (Some weights_quantization_fn) =>
      match select (get_weights_quantization_params_fn
                      (AttributeQuantizationConfig.weights_quantization_method
                         weights_cfg)) with
      | Raise e => Raise e
      | Ok weights_quantization_params_fn =>
          match FrameworkInfo.activation_quantizer_mapping fw_info
                  !! OpQuantizationConfig.activation_quantization_method op_cfg
          with
          | None => Logger_critical "Unknown quantization method for activations"
          | Some activation_quantization_fn =>
              match select (get_activation_quantization_params_fn
                              (OpQuantizationConfig.activation_quantization_method
                                 op_cfg)) with
              | Raise e => Raise e
              | Ok activation_quantization_params_fn =>
                  Ok (CandidateNodeQuantizationConfig.init qc op_cfg
                        activation_quantization_fn
                        activation_quantization_params_fn
                        weights_quantization_fn weights_quantization_params_fn
                        weight_channel_axis weights_cfg)
              end
          end
      end
  end.

(** Modelled from the spec: the constructor of the activation config (class
    not in this module), as [CandidateNodeQuantizationConfig.init] builds
    it: the values resolved from [op_cfg], the bound functions and the policy
    object. *)
Definition NodeActivationQuantizationConfig_init (qc : loc)
    (op_cfg : OpQuantizationConfig.t)
    (activation_quantization_fn activation_quantization_params_fn : Callable)
    : NodeActivationQuantizationConfig.t :=
  {| NodeActivationQuantizationConfig.qc := qc;
     NodeActivationQuantizationConfig.activation_quantization_fn :=
       activation_quantization_fn;
     NodeActivationQuantizationConfig.activation_quantization_params_fn :=
       activation_quantization_params_fn;
     NodeActivationQuantizationConfig.activation_quantization_method :=
       OpQuantizationConfig.activation_quantization_method op_cfg;
     NodeActivationQuantizationConfig.activation_n_bits :=
       OpQuantizationConfig.activation_n_bits op_cfg;
     NodeActivationQuantizationConfig.enable_activation_quantization :=
       OpQuantizationConfig.enable_activation_quantization op_cfg |}.

Definition create_node_activation_qc (qc : loc) (fw_info : FrameworkInfo.t)
    (op_cfg : OpQuantizationConfig.t)
    : outcome NodeActivationQuantizationConfig.t :=
  match FrameworkInfo.activation_quantizer_mapping fw_info
          !! OpQuantizationConfig.activation_quantization_method op_cfg with
  | None => Logger_critical "Unknown quantization method for activations"
  | Some activation_quantization_fn =>
      match select (get_activation_quantization_params_fn
                      (OpQuantizationConfig.activation_quantization_method
                         op_cfg)) with
      | Raise e => Raise e
      | Ok activation_quantization_params_fn =>
          Ok (NodeActivationQuantizationConfig_init qc op_cfg
                activation_quantization_fn activation_quantization_params_fn)
      end
  end.

(** The two messages of lines 155 and 162. *)
Definition weights_message (kernel_attr : string) : string :=
  "Unknown quantization method for weights for quantizing attribute: "
    +:+ kernel_attr.
Definition activations_message : string :=
  "Unknown quantization method for activations".

(** The four lookups of [op_cfg] find a function: the weights and the
    activation transform functions and the two parameter-fitting functions. *)
Definition methods_known (fw_info : FrameworkInfo.t)
    (op_cfg : OpQuantizationConfig.t) (kernel_attr : string) : Prop :=
  (exists f,
      get_weights_quantization_fn
        (AttributeQuantizationConfig.weights_quantization_method
           (resolve_weights_cfg op_cfg kernel_attr)) = Selected (Some f))
  /\ (exists f,
        get_weights_quantization_params_fn
          (AttributeQuantizationConfig.weights_quantization_method
             (resolve_weights_cfg op_cfg kernel_attr)) = Selected f)
  /\ is_Some (FrameworkInfo.activation_quantizer_mapping fw_info
                !! OpQuantizationConfig.activation_quantization_method op_cfg)
  /\ (exists f,
        get_activation_quantization_params_fn
          (OpQuantizationConfig.activation_quantization_method op_cfg)
        = Selected f).

(** The sort key of line 216. *)
Definition sort_key (c : Candidate) : Z * Z :=
  (NodeWeightsQuantizationConfig.weights_n_bits
     (CandidateNodeQuantizationConfig.weights_quantization_cfg c),
   NodeActivationQuantizationConfig.activation_n_bits
     (CandidateNodeQuantizationConfig.activation_quantization_cfg c)).

(** The loop of lines 207-213: one deep copy and one candidate per entry,
    appended in list order. *)
Fixpoint append_candidates (qc : loc) (fw_info : FrameworkInfo.t)
    (weight_channel_axis : option Z) (kernel_attr : string)
    (l : list OpQuantizationConfig.t) (candidates : list Candidate)
    : M store (list Candidate) :=
  match l with
  | [] => ret candidates
  | op_cfg :: rest =>
      let* candidate_nbits_qc := deepcopy qc in
      let* c := lift (_create_node_single_candidate_qc candidate_nbits_qc fw_info
                   weight_channel_axis op_cfg kernel_attr) in
      append_candidates qc fw_info weight_channel_axis kernel_attr rest
        (candidates ++ [c])
  end.

Definition _create_node_candidates_qc (qc : loc) (fw_info : FrameworkInfo.t)
    (weight_channel_axis : option Z) (node_qc_options : QuantizationConfigOptions.t)
    (node_type : NodeType) (mixed_precision_enable : bool)
    : M store (list Candidate) :=
  match FrameworkInfo.get_kernel_op_attributes fw_info node_type with
  | [kernel_attr] =>
      if mixed_precision_enable then
        let* candidates := append_candidates qc fw_info weight_channel_axis kernel_attr
                        (QuantizationConfigOptions.quantization_config_list
                           node_qc_options) [] in
        ret (sort_reverse sort_key candidates)
      else
        let* c := lift (_create_node_single_candidate_qc qc fw_info
                     weight_channel_axis
                     (QuantizationConfigOptions.base_config node_qc_options)
                     kernel_attr) in
        ret [c]
  | _ => raise AssertionError
  end.

(** The body of the loop of lines 87-91 on one candidate object. *)
Definition reconcile (node : BaseNode.t) (fw_info : FrameworkInfo.t)
    (candidate_qc : Candidate) : Candidate :=
  let w := CandidateNodeQuantizationConfig.weights_quantization_cfg candidate_qc in
  let a := CandidateNodeQuantizationConfig.activation_quantization_cfg candidate_qc in
  {| CandidateNodeQuantizationConfig.weights_quantization_cfg :=
       {| NodeWeightsQuantizationConfig.qc := NodeWeightsQuantizationConfig.qc w;
          NodeWeightsQuantizationConfig.weights_quantization_fn :=
            NodeWeightsQuantizationConfig.weights_quantization_fn w;
          NodeWeightsQuantizationConfig.weights_quantization_params_fn :=
            NodeWeightsQuantizationConfig.weights_quantization_params_fn w;
          NodeWeightsQuantizationConfig.weights_channels_axis :=
            NodeWeightsQuantizationConfig.weights_channels_axis w;
          NodeWeightsQuantizationConfig.weights_quantization_method :=
            NodeWeightsQuantizationConfig.weights_quantization_method w;
          NodeWeightsQuantizationConfig.weights_n_bits :=
            NodeWeightsQuantizationConfig.weights_n_bits w;
          NodeWeightsQuantizationConfig.weights_per_channel_threshold :=
            NodeWeightsQuantizationConfig.weights_per_channel_threshold w;
          NodeWeightsQuantizationConfig.enable_weights_quantization :=
            NodeWeightsQuantizationConfig.enable_weights_quantization w
            && BaseNode.has_weights_to_quantize node fw_info |};
     CandidateNodeQuantizationConfig.activation_quantization_cfg :=
       {| NodeActivationQuantizationConfig.qc := NodeActivationQuantizationConfig.qc a;
          NodeActivationQuantizationConfig.activation_quantization_fn :=
            NodeActivationQuantizationConfig.activation_quantization_fn a;
          NodeActivationQuantizationConfig.activation_quantization_params_fn :=
            NodeActivationQuantizationConfig.activation_quantization_params_fn a;
          NodeActivationQuantizationConfig.activation_quantization_method :=
            NodeActivationQuantizationConfig.activation_quantization_method a;
          NodeActivationQuantizationConfig.activation_n_bits :=
            NodeActivationQuantizationConfig.activation_n_bits a;
          NodeActivationQuantizationConfig.enable_activation_quantization :=
            NodeActivationQuantizationConfig.enable_activation_quantization a
            && BaseNode.get_has_activation node |} |}.

(** A candidate with its two enable flags overwritten, everything else kept. *)
Definition set_enable_flags (weights_enable activation_enable : bool)
    (c : Candidate) : Candidate :=
  let w := CandidateNodeQuantizationConfig.weights_quantization_cfg c in
  let a := CandidateNodeQuantizationConfig.activation_quantization_cfg c in
  {| CandidateNodeQuantizationConfig.weights_quantization_cfg :=
       {| NodeWeightsQuantizationConfig.qc := NodeWeightsQuantizationConfig.qc w;
          NodeWeightsQuantizationConfig.weights_quantization_fn :=
            NodeWeightsQuantizationConfig.weights_quantization_fn w;
          NodeWeightsQuantizationConfig.weights_quantization_params_fn :=
            NodeWeightsQuantizationConfig.weights_quantization_params_fn w;
          NodeWeightsQuantizationConfig.weights_channels_axis :=
            NodeWeightsQuantizationConfig.weights_channels_axis w;
          NodeWeightsQuantizationConfig.weights_quantization_method :=
            NodeWeightsQuantizationConfig.weights_quantization_method w;
          NodeWeightsQuantizationConfig.weights_n_bits :=
            NodeWeightsQuantizationConfig.weights_n_bits w;
          NodeWeightsQuantizationConfig.weights_per_channel_threshold :=
            NodeWeightsQuantizationConfig.weights_per_channel_threshold w;
          NodeWeightsQuantizationConfig.enable_weights_quantization :=
            weights_enable |};
     CandidateNodeQuantizationConfig.activation_quantization_cfg :=
       {| NodeActivationQuantizationConfig.qc := NodeActivationQuantizationConfig.qc a;
          NodeActivationQuantizationConfig.activation_quantization_fn :=
            NodeActivationQuantizationConfig.activation_quantization_fn a;
          NodeActivationQuantizationConfig.activation_quantization_params_fn :=
            NodeActivationQuantizationConfig.activation_quantization_params_fn a;
          NodeActivationQuantizationConfig.activation_quantization_method :=
            NodeActivationQuantizationConfig.activation_quantization_method a;
          NodeActivationQuantizationConfig.activation_n_bits :=
            NodeActivationQuantizationConfig.activation_n_bits a;
          NodeActivationQuantizationConfig.enable_activation_quantization :=
            activation_enable |} |}.

(** The loop of lines 87-91: the candidate objects of the node's list are
    updated in place, one position after the other. *)
Definition reconcile_at (fw_info : FrameworkInfo.t) (node : BaseNode.t)
    (i : nat) : BaseNode.t :=
  match BaseNode.candidates_quantization_cfg node !! i with
  | Some candidate_qc =>
      BaseNode.set_candidates node
        (<[i := reconcile node fw_info candidate_qc]>
           (BaseNode.candidates_quantization_cfg node))
  | None => node
  end.

Definition reconcile_all (fw_info : FrameworkInfo.t) (node : BaseNode.t)
    : BaseNode.t :=
  foldl (reconcile_at fw_info) node
        (seq 0 (length (BaseNode.candidates_quantization_cfg node))).

(** [set_quantization_configs_to_node]: the state is the node object and the
    store of policy objects. *)
Definition set_quantization_configs_to_node (quant_config : loc)
    (fw_info : FrameworkInfo.t) (tpc : TargetPlatformCapabilities)
    (mixed_precision_enable : bool) : M (BaseNode.t * store) unit :=
  fun '(node, h) =>
    let node_qc_options := BaseNode.get_qco node tpc in
    match DefaultDict.get (FrameworkInfo.kernel_channels_mapping fw_info)
            (BaseNode.type node) with
    | None => (Raise TypeError, (node, h))
    | Some [] => (Raise IndexError, (node, h))
    | Some (weight_channel_axis :: _) =>
        match _create_node_candidates_qc quant_config fw_info weight_channel_axis
                node_qc_options (BaseNode.type node) mixed_precision_enable h with
        | (Raise e, h') => (Raise e, (node, h'))
        | (Ok candidates, h') =>
            (Ok tt,
             (reconcile_all fw_info (BaseNode.set_candidates node candidates), h'))
        end
    end.

(** The loop of lines 52-57 over [graph.nodes]: [done] are the nodes already
    visited, [todo] those still to visit. *)
Fixpoint for_nodes (quant_config : loc) (fw_info : FrameworkInfo.t)
    (tpc : TargetPlatformCapabilities) (mixed_precision_enable : bool)
    (done todo : list BaseNode.t) (h : store)
    : outcome unit * (list BaseNode.t * store) :=
  match todo with
  | [] => (Ok tt, (done, h))
  | n :: rest =>
      match set_quantization_configs_to_node quant_config fw_info tpc
              mixed_precision_enable (n, h) with
      | (Ok _, (n', h')) =>
          for_nodes quant_config fw_info tpc mixed_precision_enable
            (done ++ [n']) rest h'
      | (Raise e, (n', h')) => (Raise e, (done ++ n' :: rest, h'))
      end
  end.

Definition set_quantization_configuration_to_graph (quant_config : loc)
    (mixed_precision_enable : bool) : M (Graph.t * store) Graph.t :=
  fun '(graph, h) =>
    match for_nodes quant_config (Graph.fw_info graph) (Graph.tpc graph)
            mixed_precision_enable [] (Graph.nodes graph) h with
    | (Ok _, (ns, h')) =>
        (Ok (Graph.set_nodes graph ns), (Graph.set_nodes graph ns, h'))
    | (Raise e, (ns, h')) => (Raise e, (Graph.set_nodes graph ns, h'))
    end.

End Synthesis.

(** The options the synthesizer reads: the whole list under mixed precision,
    the base config alone otherwise (lines 207 and 222). *)
Definition options_used (mixed_precision_enable : bool)
    (node_qc_options : QuantizationConfigOptions.t) : list OpQuantizationConfig.t :=
  if mixed_precision_enable
  then QuantizationConfigOptions.quantization_config_list node_qc_options
  else [QuantizationConfigOptions.base_config node_qc_options].


(** ** Concrete inputs *)

Module Examples.

Local Open Scope string_scope.

(** The policy object is a string here; its contents are never read. *)
Definition policy : Type := string.

(** Selectors that know three weights methods and two activation methods,
    and fail with a message naming the method otherwise. *)
Definition weights_fn (m : QuantizationMethod) : selection (option Callable) :=
  if String.eqb m "POWER_OF_TWO" then Selected (Some "power_of_two_quantizer")
  else if String.eqb m "SYMMETRIC" then Selected (Some "symmetric_quantizer")
  else NoSelection ("No quantizer function for quantization method " +:+ m).
Definition weights_params_fn (m : QuantizationMethod) : selection Callable :=
  if String.eqb m "POWER_OF_TWO" then Selected "power_of_two_selection_tensor"
  else if String.eqb m "SYMMETRIC" then Selected "symmetric_selection_tensor"
  else NoSelection ("No params function for quantization method " +:+ m).
Definition activation_params_fn (m : QuantizationMethod) : selection Callable :=
  if String.eqb m "POWER_OF_TWO" then Selected "power_of_two_selection_histogram"
  else if String.eqb m "UNIFORM" then Selected "uniform_selection_histogram"
  else NoSelection ("No params function for quantization method " +:+ m).

(** A framework info whose kernel-channel mapping answers unlisted types
    with the pair (None, None), and whose activation quantizer dict lists a
    method ([KMEANS]) the params selector does not know. *)
Definition fw : FrameworkInfo.t :=
  {| FrameworkInfo.kernel_channels_mapping :=
       {| DefaultDict.contents :=
            {[ "Conv2D" := [Some 3; Some 2]; "Dense" := [Some 1; Some 0];
               "Flatten" := [] ]};
          DefaultDict.default_value := Some [None; None] |};
     FrameworkInfo.get_kernel_op_attributes :=
       fun ty => if String.eqb ty "Conv2D" then ["kernel"]
                 else if String.eqb ty "Dense" then ["kernel"; "bias"]
                 else if String.eqb ty "ReLU" then ["none"]
                 else [];
     FrameworkInfo.activation_quantizer_mapping :=
       {[ "POWER_OF_TWO" := "power_of_two_quantization";
          "UNIFORM" := "uniform_quantization";
          "KMEANS" := "kmeans_quantization" ]} |}.

(** The same framework info with a kernel-channel mapping whose default
    value is None. *)
Definition fw_none_default : FrameworkInfo.t :=
  {| FrameworkInfo.kernel_channels_mapping :=
       {| DefaultDict.contents :=
            DefaultDict.contents (FrameworkInfo.kernel_channels_mapping fw);
          DefaultDict.default_value := None |};
     FrameworkInfo.get_kernel_op_attributes :=
       FrameworkInfo.get_kernel_op_attributes fw;
     FrameworkInfo.activation_quantizer_mapping :=
       FrameworkInfo.activation_quantizer_mapping fw |}.

Definition attr (m : QuantizationMethod) (n : Z) : AttributeQuantizationConfig.t :=
  {| AttributeQuantizationConfig.weights_quantization_method := m;
     AttributeQuantizationConfig.weights_n_bits := n;
     AttributeQuantizationConfig.weights_per_channel_threshold := true;
     AttributeQuantizationConfig.enable_weights_quantization := true |}.

(** An option with [w] weights bits on the kernel and [a] activation bits. *)
Definition op_with (wm am : QuantizationMethod) (w a : Z) : OpQuantizationConfig.t :=
  {| OpQuantizationConfig.attr_weights_configs_mapping := {[ "kernel" := attr wm w ]};
     OpQuantizationConfig.default_weight_attr_config := attr wm 8;
     OpQuantizationConfig.activation_quantization_method := am;
     OpQuantizationConfig.activation_n_bits := a;
     OpQuantizationConfig.enable_activation_quantization := true |}.

Definition op (w a : Z) : OpQuantizationConfig.t :=
  op_with "POWER_OF_TWO" "POWER_OF_TWO" w a.

(** Scenario A: the bit-width pairs (8,8), (4,8), (8,4), (2,2); the base
    config is the first entry. *)
Definition options_A : QuantizationConfigOptions.t :=
  {| QuantizationConfigOptions.quantization_config_list :=
       [op 8 8; op 4 8; op 8 4; op 2 2];
     QuantizationConfigOptions.base_config := op 8 8;
     QuantizationConfigOptions.base_config_listed := list_elem_of_here _ _ |}.

(** Two entries of equal bit-widths that differ in their methods; the base
    config is the last entry. *)
Definition options_ties : QuantizationConfigOptions.t :=
  {| QuantizationConfigOptions.quantization_config_list :=
       [op_with "POWER_OF_TWO" "POWER_OF_TWO" 4 8;
        op_with "SYMMETRIC" "UNIFORM" 8 8;
        op_with "POWER_OF_TWO" "POWER_OF_TWO" 8 8];
     QuantizationConfigOptions.base_config := op 8 8;
     QuantizationConfigOptions.base_config_listed :=
       list_elem_of_further _ _ _
         (list_elem_of_further _ _ _ (list_elem_of_here _ _)) |}.

(** Options whose base config, the second entry, has a method the selectors
    do not know: a weights method, and an activation method the quantizer
    dict does not list. *)
Definition options_bogus_weights : QuantizationConfigOptions.t :=
  {| QuantizationConfigOptions.quantization_config_list :=
       [op 8 8; op_with "bogus" "POWER_OF_TWO" 4 8];
     QuantizationConfigOptions.base_config := op_with "bogus" "POWER_OF_TWO" 4 8;
     QuantizationConfigOptions.base_config_listed :=
       list_elem_of_further _ _ _ (list_elem_of_here _ _) |}.

Definition options_bogus_activation : QuantizationConfigOptions.t :=
  {| QuantizationConfigOptions.quantization_config_list :=
       [op 8 8; op_with "POWER_OF_TWO" "bogus_act" 4 8];
     QuantizationConfigOptions.base_config :=
       op_with "POWER_OF_TWO" "bogus_act" 4 8;
     QuantizationConfigOptions.base_config_listed :=
       list_elem_of_further _ _ _ (list_elem_of_here _ _) |}.

Definition node_of (ty : NodeType) (opts : QuantizationConfigOptions.t)
    (has_weights has_activation : bool) : BaseNode.t :=
  {| BaseNode.type := ty;
     BaseNode.get_qco := fun _ => opts;
     BaseNode.has_weights_to_quantize := fun _ => has_weights;
     BaseNode.get_has_activation := has_activation;
     BaseNode.candidates_quantization_cfg := [] |}.

Definition conv : BaseNode.t := node_of "Conv2D" options_A true true.
Definition conv_ties : BaseNode.t := node_of "Conv2D" options_ties true true.
Definition conv_bogus_weights : BaseNode.t :=
  node_of "Conv2D" options_bogus_weights true true.
Definition conv_bogus_activation : BaseNode.t :=
  node_of "Conv2D" options_bogus_activation true true.
(** Scenario C: an activation-only node, of a type the kernel-channel
    mapping does not list. *)
Definition relu : BaseNode.t := node_of "ReLU" options_A false true.

Definition tpc : TargetPlatformCapabilities := ∅.

(** The store holds the caller's policy at location 0. *)
Definition h0 : list policy := ["policy"].

Definition run_synth (ty : NodeType) (opts : QuantizationConfigOptions.t)
    (mp : bool) : outcome (list Candidate) * list policy :=
  _create_node_candidates_qc weights_fn weights_params_fn activation_params_fn
    0%nat fw (Some 3) opts ty mp h0.

Definition run_node_in (fw_info : FrameworkInfo.t) (node : BaseNode.t) (mp : bool)
    : outcome unit * (BaseNode.t * list policy) :=
  set_quantization_configs_to_node weights_fn weights_params_fn
    activation_params_fn 0%nat fw_info tpc mp (node, h0).

Definition run_node (node : BaseNode.t) (mp : bool)
    : outcome unit * (BaseNode.t * list policy) :=
  run_node_in fw node mp.

Definition graph_of (ns : list BaseNode.t) : Graph.t :=
  {| Graph.nodes := ns; Graph.fw_info := fw; Graph.tpc := tpc |}.

Definition run_graph (ns : list BaseNode.t) (mp : bool)
    : outcome Graph.t * (Graph.t * list policy) :=
  set_quantization_configuration_to_graph weights_fn weights_params_fn
    activation_params_fn 0%nat mp (graph_of ns, h0).

End Examples.

(** ** The descending stable sort *)

Section SortReverse.
Context {A : Type} (key : A -> Z * Z).

(** [x] may stand in front of [y] in descending key order. *)
Definition key_ge (x y : A) : Prop := tuple_lt (key x) (key y) = false.

Lemma tuple_lt_true (a b : Z * Z) :
  tuple_lt a b = true <-> a.1 < b.1 \/ (a.1 = b.1 /\ a.2 < b.2).
Proof. unfold tuple_lt. lia. Qed.

Lemma tuple_lt_false (a b : Z * Z) :
  tuple_lt a b = false <-> a.1 > b.1 \/ (a.1 = b.1 /\ a.2 >= b.2).
Proof.
  rewrite <- not_true_iff_false, tuple_lt_true. lia.
Qed.

Lemma tuple_lt_neq (a b : Z * Z) : tuple_lt a b = true -> a <> b.
Proof. rewrite tuple_lt_true. intros H ->. lia. Qed.

Lemma key_ge_trans (x y z : A) : key_ge x y -> key_ge y z -> key_ge x z.
Proof. unfold key_ge. rewrite !tuple_lt_false. lia. Qed.

Lemma insert_reverse_perm (x : A) (l : list A) :
  insert_reverse key x l ≡ₚ x :: l.
Proof.
  induction l as [|y l IH]; simpl; [done|].
  destruct (tuple_lt (key x) (key y)); [|done].
  rewrite IH. apply Permutation_swap.
Qed.

Lemma sort_reverse_perm (l : list A) : sort_reverse key l ≡ₚ l.
Proof.
  induction l as [|x l IH]; simpl; [done|].
  rewrite insert_reverse_perm. by rewrite IH.
Qed.

Lemma sort_reverse_length (l : list A) :
  length (sort_reverse key l) = length l.
Proof. by rewrite sort_reverse_perm. Qed.

Lemma insert_reverse_sorted (x : A) (l : list A) :
  StronglySorted key_ge l -> StronglySorted key_ge (insert_reverse key x l).
Proof.
  induction 1 as [|y l Hl IH Hy]; simpl.
  - repeat constructor.
  - destruct (tuple_lt (key x) (key y)) eqn:E.
    + constructor; [done|].
      rewrite insert_reverse_perm. constructor; [|done].
      unfold key_ge. apply tuple_lt_true in E. apply tuple_lt_false. lia.
    + constructor; [by constructor|].
      constructor; [done|].
      eapply Forall_impl; [exact Hy|].
      intros z Hz. by apply (key_ge_trans x y z).
Qed.

Lemma sort_reverse_sorted (l : list A) :
  StronglySorted key_ge (sort_reverse key l).
Proof.
  induction l as [|x l IH]; simpl; [constructor|].
  by apply insert_reverse_sorted.
Qed.

Lemma StronglySorted_adjacent (R : A -> A -> Prop) (l : list A) (i : nat) (x y : A) :
  StronglySorted R l -> l !! i = Some x -> l !! S i = Some y -> R x y.
Proof.
  intros Hl. revert i. induction Hl as [|z l Hl IH Hz]; intros i Hx Hy; [done|].
  destruct i as [|i]; simpl in *.
  - injection Hx as ->. rewrite Forall_forall in Hz. apply Hz.
    by eapply list_elem_of_lookup_2.
  - by eapply IH.
Qed.

(** Stability: the elements of any one key come out in their input order. *)
Lemma insert_reverse_filter (k : Z * Z) (x : A) (l : list A) :
  filter (fun y => key y = k) (insert_reverse key x l)
  = filter (fun y => key y = k) (x :: l).
Proof.
  induction l as [|y l IH]; simpl; [done|].
  destruct (tuple_lt (key x) (key y)) eqn:E; [|done].
  apply tuple_lt_neq in E.
  rewrite (filter_cons _ y), IH, !filter_cons.
  repeat case_decide; congruence.
Qed.

Lemma sort_reverse_stable (k : Z * Z) (l : list A) :
  filter (fun y => key y = k) (sort_reverse key l)
  = filter (fun y => key y = k) l.
Proof.
  induction l as [|x l IH]; simpl; [done|].
  rewrite insert_reverse_filter, !filter_cons, IH. done.
Qed.

(** The contract determines the result: a list in descending key order that
    keeps every key class of [l] in input order is [sort_reverse key l]. *)
Lemma stable_sorted_unique (l1 l2 : list A) :
  StronglySorted key_ge l1 -> StronglySorted key_ge l2 ->
  (forall k, filter (fun y => key y = k) l1 = filter (fun y => key y = k) l2) ->
  l1 = l2.
Proof.
  intros H1. revert l2. induction H1 as [|x l1 H1 IH Hx]; intros l2 H2 Hf.
  - destruct l2 as [|y l2]; [done|].
    specialize (Hf (key y)). rewrite filter_cons_True in Hf by done. done.
  - destruct l2 as [|y l2].
    { specialize (Hf (key x)). rewrite filter_cons_True in Hf by done. done. }
    inversion H2 as [|? ? H2' Hy]; subst.
    assert (Hk : key x = key y).
    { assert (Hxy : key_ge y x).
      { assert (Hin : x ∈ filter (fun z => key z = key x) (y :: l2)).
        { rewrite <- Hf, filter_cons_True by done. left. }
        apply list_elem_of_filter in Hin as [_ Hin].
        apply elem_of_cons in Hin as [->|Hin]; [unfold key_ge; apply tuple_lt_false; lia|].
        rewrite Forall_forall in Hy. by apply Hy. }
      assert (Hyx : key_ge x y).
      { assert (Hin : y ∈ filter (fun z => key z = key y) (x :: l1)).
        { rewrite Hf, filter_cons_True by done. left. }
        apply list_elem_of_filter in Hin as [_ Hin].
        apply elem_of_cons in Hin as [->|Hin]; [unfold key_ge; apply tuple_lt_false; lia|].
        rewrite Forall_forall in Hx. by apply Hx. }
      unfold key_ge in *. apply tuple_lt_false in Hxy, Hyx.
      destruct (key x), (key y); simpl in *. f_equal; lia. }
    assert (Hhd : x = y).
    { specialize (Hf (key x)).
      rewrite filter_cons_True in Hf by done.
      rewrite filter_cons_True in Hf by done. congruence. }
    subst y. f_equal. apply IH; [done|].
    intros k. specialize (Hf k). rewrite !filter_cons in Hf.
    case_decide; congruence.
Qed.

End SortReverse.

(** ** Candidate synthesis *)

Section SynthesisFacts.
Context {QuantizationConfig : Type}.
Variable get_weights_quantization_fn :
  QuantizationMethod -> selection (option Callable).
Variable get_weights_quantization_params_fn :
  QuantizationMethod -> selection Callable.
Variable get_activation_quantization_params_fn :
  QuantizationMethod -> selection Callable.

Local Abbreviation single :=
  (_create_node_single_candidate_qc get_weights_quantization_fn
     get_weights_quantization_params_fn get_activation_quantization_params_fn).
Local Abbreviation append :=
  (append_candidates (QuantizationConfig := QuantizationConfig)
     get_weights_quantization_fn
     get_weights_quantization_params_fn get_activation_quantization_params_fn).
Local Abbreviation synth :=
  (_create_node_candidates_qc (QuantizationConfig := QuantizationConfig)
     get_weights_quantization_fn
     get_weights_quantization_params_fn get_activation_quantization_params_fn).
Local Abbreviation set_node :=
  (set_quantization_configs_to_node (QuantizationConfig := QuantizationConfig)
     get_weights_quantization_fn
     get_weights_quantization_params_fn get_activation_quantization_params_fn).
Local Abbreviation set_graph :=
  (set_quantization_configuration_to_graph (QuantizationConfig := QuantizationConfig)
     get_weights_quantization_fn
     get_weights_quantization_params_fn get_activation_quantization_params_fn).
Local Abbreviation loop_nodes :=
  (for_nodes (QuantizationConfig := QuantizationConfig)
     get_weights_quantization_fn
     get_weights_quantization_params_fn get_activation_quantization_params_fn).

Local Abbreviation store := (list QuantizationConfig).
Local Abbreviation known :=
  (methods_known get_weights_quantization_fn
     get_weights_quantization_params_fn get_activation_quantization_params_fn).
Local Abbreviation w_cfg := CandidateNodeQuantizationConfig.weights_quantization_cfg.
Local Abbreviation a_cfg := CandidateNodeQuantizationConfig.activation_quantization_cfg.
Local Abbreviation cands := BaseNode.candidates_quantization_cfg.

Lemma single_ok_inv qc fw_info axis op_cfg k c :
  single qc fw_info axis op_cfg k = Ok c ->
  exists wfn wpfn afn apfn,
    get_weights_quantization_fn
      (AttributeQuantizationConfig.weights_quantization_method
         (resolve_weights_cfg op_cfg k)) = Selected (Some wfn)
    /\ get_weights_quantization_params_fn
         (AttributeQuantizationConfig.weights_quantization_method
            (resolve_weights_cfg op_cfg k)) = Selected wpfn
    /\ FrameworkInfo.activation_quantizer_mapping fw_info
         !! OpQuantizationConfig.activation_quantization_method op_cfg = Some afn
    /\ get_activation_quantization_params_fn
         (OpQuantizationConfig.activation_quantization_method op_cfg)
       = Selected apfn
    /\ c = CandidateNodeQuantizationConfig.init qc op_cfg afn apfn wfn wpfn
             axis (resolve_weights_cfg op_cfg k).
Proof.
  unfold _create_node_single_candidate_qc, Logger_critical, select.
  destruct (get_weights_quantization_fn _) as [[wfn|]|]; [|done..].
  destruct (get_weights_quantization_params_fn _) as [wpfn|]; [|done].
  destruct (_ !! _) as [afn|]; [|done].
  destruct (get_activation_quantization_params_fn _) as [apfn|]; [|done].
  intros [= <-]. by exists wfn, wpfn, afn, apfn.
Qed.

(** The five ways the builder raises, in the order of its lookups. *)
Lemma single_raise_inv qc fw_info axis op_cfg k e :
  single qc fw_info axis op_cfg k = Raise e ->
  (exists msg,
      get_weights_quantization_fn
        (AttributeQuantizationConfig.weights_quantization_method
           (resolve_weights_cfg op_cfg k)) = NoSelection msg
      /\ e = SelectionError msg)
  \/ (get_weights_quantization_fn
        (AttributeQuantizationConfig.weights_quantization_method
           (resolve_weights_cfg op_cfg k)) = Selected None
      /\ e = CriticalError (weights_message k))
  \/ (exists wfn,
        get_weights_quantization_fn
          (AttributeQuantizationConfig.weights_quantization_method
             (resolve_weights_cfg op_cfg k)) = Selected (Some wfn)
        /\ ((exists msg,
                get_weights_quantization_params_fn
                  (AttributeQuantizationConfig.weights_quantization_method
                     (resolve_weights_cfg op_cfg k)) = NoSelection msg
                /\ e = SelectionError msg)
            \/ (exists wpfn,
                  get_weights_quantization_params_fn
                    (AttributeQuantizationConfig.weights_quantization_method
                       (resolve_weights_cfg op_cfg k)) = Selected wpfn
                  /\ ((FrameworkInfo.activation_quantizer_mapping fw_info
                         !! OpQuantizationConfig.activation_quantization_method
                              op_cfg = None
                       /\ e = CriticalError activations_message)
                      \/ (exists afn msg,
                            FrameworkInfo.activation_quantizer_mapping fw_info
                              !! OpQuantizationConfig.activation_quantization_method
                                   op_cfg = Some afn
                            /\ get_activation_quantization_params_fn
                                 (OpQuantizationConfig.activation_quantization_method
                                    op_cfg) = NoSelection msg
                            /\ e = SelectionError msg))))).
Proof.
  unfold _create_node_single_candidate_qc, Logger_critical, select.
  destruct (get_weights_quantization_fn _) as [[wfn|]|msg] eqn:Hw;
    [|intros [= <-]; right; left; done | intros [= <-]; left; by exists msg].
  destruct (get_weights_quantization_params_fn _) as [wpfn|msg] eqn:Hwp;
    [|intros [= <-]; right; right; exists wfn; split; [done|]; left;
      by exists msg].
  destruct (_ !! _) as [afn|] eqn:Ha;
    [|intros [= <-]; right; right; exists wfn; split; [done|]; right;
      exists wpfn; split; [done|]; by left].
  destruct (get_activation_quantization_params_fn _) as [apfn|msg] eqn:Hap;
    [done|].
  intros [= <-]. right; right. exists wfn. split; [done|]. right.
  exists wpfn. split; [done|]. right. by exists afn, msg.
Qed.

(** The builder raises critical and selection errors only. *)
Lemma single_raise_class qc fw_info axis op_cfg k e :
  single qc fw_info axis op_cfg k = Raise e ->
  exists msg, e = CriticalError msg \/ e = SelectionError msg.
Proof.
  intros [(msg & _ & ->)|[(_ & ->)|(wfn & _ & [(msg & _ & ->)|(wpfn & _ &
    [(_ & ->)|(afn & msg & _ & _ & ->)])])]]%single_raise_inv; eauto.
Qed.

Lemma single_ok_known qc fw_info axis op_cfg k c :
  single qc fw_info axis op_cfg k = Ok c -> known fw_info op_cfg k.
Proof.
  intros (wfn & wpfn & afn & apfn & Hw & Hwp & Ha & Hap & _)%single_ok_inv.
  repeat split; eauto.
Qed.

Lemma single_known_ok qc fw_info axis op_cfg k :
  known fw_info op_cfg k ->
  exists c, single qc fw_info axis op_cfg k = Ok c.
Proof.
  intros ([wfn Hw] & [wpfn Hwp] & [afn Ha] & [apfn Hap]).
  unfold _create_node_single_candidate_qc, select.
  rewrite Hw, Hwp, Ha, Hap. eauto.
Qed.

Lemma single_raise_unknown qc fw_info axis op_cfg k e :
  single qc fw_info axis op_cfg k = Raise e -> ~ known fw_info op_cfg k.
Proof.
  intros He Hknown.
  destruct (single_known_ok qc fw_info axis op_cfg k Hknown) as [c Hc].
  congruence.
Qed.

(** What a raise says does not depend on the policy object handed in. *)
Lemma single_raise_indep qc qc' fw_info axis op_cfg k e :
  single qc fw_info axis op_cfg k = Raise e ->
  single qc' fw_info axis op_cfg k = Raise e.
Proof.
  unfold _create_node_single_candidate_qc, select.
  destruct (get_weights_quantization_fn _) as [[wfn|]|]; [|done..].
  destruct (get_weights_quantization_params_fn _); [|done].
  destruct (_ !! _); [|done].
  by destruct (get_activation_quantization_params_fn _).
Qed.

Lemma single_fields qc fw_info axis op_cfg k c :
  single qc fw_info axis op_cfg k = Ok c ->
  NodeWeightsQuantizationConfig.qc (w_cfg c) = qc
  /\ NodeActivationQuantizationConfig.qc (a_cfg c) = qc
  /\ NodeWeightsQuantizationConfig.weights_n_bits (w_cfg c)
     = AttributeQuantizationConfig.weights_n_bits (resolve_weights_cfg op_cfg k)
  /\ NodeActivationQuantizationConfig.activation_n_bits (a_cfg c)
     = OpQuantizationConfig.activation_n_bits op_cfg
  /\ NodeWeightsQuantizationConfig.enable_weights_quantization (w_cfg c)
     = AttributeQuantizationConfig.enable_weights_quantization
         (resolve_weights_cfg op_cfg k)
  /\ NodeActivationQuantizationConfig.enable_activation_quantization (a_cfg c)
     = OpQuantizationConfig.enable_activation_quantization op_cfg.
Proof.
  intros (wfn & wpfn & afn & apfn & _ & _ & _ & _ & ->)%single_ok_inv.
  by repeat split.
Qed.

(** The loop over the option list: on success the store has grown by one
    copy of the policy per entry, and the candidate of entry [i] was built
    from the [i]-th new object. *)
Lemma append_ok_inv qc fw_info axis k l acc h cs h' :
  append qc fw_info axis k l acc h = (Ok cs, h') ->
  exists built new,
    cs = acc ++ built /\ h' = h ++ new
    /\ length built = length l /\ length new = length l
    /\ (forall x, x ∈ new -> h !! qc = Some x)
    /\ (forall i op_cfg, l !! i = Some op_cfg ->
          exists c, built !! i = Some c
                    /\ single (length h + i)%nat fw_info axis op_cfg k = Ok c).
Proof.
  revert acc h. induction l as [|op_cfg l IH]; intros acc h; simpl.
  - intros [= <- <-]. exists [], []. rewrite !app_nil_r.
    repeat split; [by intros x ?%elem_of_nil | done].
  - unfold bind at 1, deepcopy.
    destruct (h !! qc) as [v|] eqn:Hqc; [|done].
    unfold bind at 1, lift.
    destruct (single _ _ _ _ _) as [c|e] eqn:Hc; [|done].
    intros (built & new & -> & -> & Hb & Hn & Hnew & Hbuilt)%IH.
    exists (c :: built), (v :: new). rewrite <- !app_assoc. simpl.
    pose proof (lookup_lt_Some _ _ _ Hqc) as Hlt.
    split; [done|]. split; [done|]. split; [lia|]. split; [lia|]. split.
    + intros x [->|Hx]%elem_of_cons; [done|].
      apply Hnew in Hx. rewrite lookup_app_l in Hx by done. congruence.
    + intros [|i] op Hop; simpl in *.
      * injection Hop as <-. exists c. by rewrite Nat.add_0_r.
      * destruct (Hbuilt i op Hop) as (c' & Hc' & Hs). exists c'.
        split; [done|]. rewrite length_app in Hs. simpl in Hs.
        by replace (length h + S i)%nat with (length h + 1 + i)%nat by lia.
Qed.

(** On a raise, the first entry that cannot be built is the one that
    raised; the store holds the copies made so far. *)
Lemma append_raise_inv qc fw_info axis k l acc h e h' :
  append qc fw_info axis k l acc h = (Raise e, h') ->
  (e = DanglingReference /\ h !! qc = None /\ h' = h)
  \/ exists i op_cfg new,
       l !! i = Some op_cfg
       /\ single (length h + i)%nat fw_info axis op_cfg k = Raise e
       /\ (forall j op', (j < i)%nat -> l !! j = Some op' ->
             known fw_info op' k)
       /\ h' = h ++ new /\ length new = S i
       /\ (forall x, x ∈ new -> h !! qc = Some x).
Proof.
  revert acc h. induction l as [|op_cfg l IH]; intros acc h; simpl; [done|].
  unfold bind at 1, deepcopy.
  destruct (h !! qc) as [v|] eqn:Hqc; [|intros [= <- <-]; by left].
  unfold bind at 1, lift.
  destruct (single _ _ _ _ _) as [c|e'] eqn:Hc.
  - intros [(-> & Hnone & _)|(i & op & new & Hop & Hs & Hprev & -> & Hn & Hnew)]%IH.
    { pose proof (lookup_lt_Some _ _ _ Hqc) as Hlt.
      rewrite lookup_app_l in Hnone by done. congruence. }
    right. exists (S i), op, (v :: new). rewrite <- app_assoc. simpl.
    split; [done|]. split; [|split; [|split; [done|split; [lia|]]]].
    + rewrite length_app in Hs. simpl in Hs.
      by replace (length h + S i)%nat with (length h + 1 + i)%nat by lia.
    + intros [|j] op' Hj Hop'; simpl in *.
      * injection Hop' as <-. by eapply single_ok_known.
      * apply (Hprev j); [lia | done].
    + intros x [->|Hx]%elem_of_cons; [done|].
      apply Hnew in Hx. pose proof (lookup_lt_Some _ _ _ Hqc) as Hlt.
      rewrite lookup_app_l in Hx by done. congruence.
  - intros [= <- <-]. right. exists 0%nat, op_cfg, [v]. simpl.
    rewrite Nat.add_0_r. split; [done|]. split; [done|].
    split; [intros; lia|]. split; [done|]. split; [done|].
    by intros x ->%list_elem_of_singleton.
Qed.

(** The loop succeeds when the policy reference is valid and every entry
    has known methods. *)
Lemma append_ok qc fw_info axis k l acc h v :
  h !! qc = Some v ->
  Forall (fun op_cfg => known fw_info op_cfg k) l ->
  exists cs, append qc fw_info axis k l acc h
             = (Ok cs, h ++ replicate (length l) v).
Proof.
  intros Hqc Hl.
  destruct (append qc fw_info axis k l acc h) as [[cs|e] h'] eqn:E.
  - exists cs. f_equal.
    apply append_ok_inv in E as (built & new & _ & -> & _ & Hn & Hnew & _).
    f_equal. apply list_eq_same_length with (length l);
      [by rewrite length_replicate | done |].
    intros i x y Hi Hx Hy. apply lookup_replicate in Hy as [-> _].
    apply list_elem_of_lookup_2, Hnew in Hx. congruence.
  - apply append_raise_inv in E
      as [(_ & Hnone & _)|(i & op & new & Hop & Hs & _)]; [congruence|].
    apply single_raise_unknown in Hs. rewrite Forall_forall in Hl.
    destruct Hs. apply Hl. by eapply list_elem_of_lookup_2.
Qed.

(** The reconciliation loop rewrites every candidate of the list, and
    nothing else of the node. *)
Lemma reconcile_loop fw_info node cs n i :
  (i + n)%nat = length cs ->
  foldl (reconcile_at fw_info) (BaseNode.set_candidates node cs) (seq i n)
  = BaseNode.set_candidates node
      (take i cs ++ (reconcile node fw_info <$> drop i cs)).
Proof.
  revert i cs. induction n as [|n IH]; intros i cs Hlen; simpl.
  - rewrite take_ge, drop_ge by lia. by rewrite app_nil_r.
  - destruct (lookup_lt_is_Some_2 cs i) as [c Hc]; [lia|].
    unfold reconcile_at at 2. simpl. rewrite Hc.
    change (BaseNode.set_candidates (BaseNode.set_candidates node cs)
              (<[i:=reconcile (BaseNode.set_candidates node cs) fw_info c]> cs))
      with (BaseNode.set_candidates node (<[i:=reconcile node fw_info c]> cs)).
    rewrite IH by (rewrite length_insert; lia). f_equal.
    rewrite (take_S_r _ _ (reconcile node fw_info c))
      by (apply list_lookup_insert_eq; lia).
    rewrite take_insert_ge, drop_insert_lt by lia.
    rewrite (drop_S cs c i Hc). simpl. by rewrite <- app_assoc.
Qed.

Lemma reconcile_all_map fw_info node cs :
  reconcile_all fw_info (BaseNode.set_candidates node cs)
  = BaseNode.set_candidates node (reconcile node fw_info <$> cs).
Proof.
  unfold reconcile_all. simpl. by rewrite reconcile_loop.
Qed.

Lemma sort_key_reconcile node fw_info c :
  sort_key (reconcile node fw_info c) = sort_key c.
Proof. done. Qed.

(** ** The synthesizer *)

Lemma synth_assertion qc fw_info axis opts ty mp h :
  length (FrameworkInfo.get_kernel_op_attributes fw_info ty) <> 1%nat ->
  synth qc fw_info axis opts ty mp h = (Raise AssertionError, h).
Proof.
  unfold _create_node_candidates_qc.
  by destruct (FrameworkInfo.get_kernel_op_attributes fw_info ty) as [|? [|? ?]].
Qed.

Lemma synth_one_attr qc fw_info axis opts ty mp h r :
  synth qc fw_info axis opts ty mp h = r ->
  fst r <> Raise AssertionError ->
  exists k, FrameworkInfo.get_kernel_op_attributes fw_info ty = [k].
Proof.
  intros <-. unfold _create_node_candidates_qc.
  destruct (FrameworkInfo.get_kernel_op_attributes fw_info ty) as [|k [|? ?]];
    simpl; [done | eauto | done].
Qed.

Lemma synth_ok_inv_single qc fw_info axis opts ty h cs h' :
  synth qc fw_info axis opts ty false h = (Ok cs, h') ->
  exists k c,
    FrameworkInfo.get_kernel_op_attributes fw_info ty = [k]
    /\ single qc fw_info axis (QuantizationConfigOptions.base_config opts) k = Ok c
    /\ cs = [c] /\ h' = h.
Proof.
  intros E.
  destruct (synth_one_attr _ _ _ _ _ _ _ _ E) as [k Hk]; [by simpl|].
  revert E. unfold _create_node_candidates_qc. rewrite Hk.
  unfold bind, lift, ret.
  destruct (single _ _ _ _ _) as [c|e] eqn:Hc; [|done].
  intros [= <- <-]. by exists k, c.
Qed.

Lemma synth_ok_inv_mixed qc fw_info axis opts ty h cs h' :
  synth qc fw_info axis opts ty true h = (Ok cs, h') ->
  exists k built new,
    FrameworkInfo.get_kernel_op_attributes fw_info ty = [k]
    /\ cs = sort_reverse sort_key built /\ h' = h ++ new
    /\ length built
       = length (QuantizationConfigOptions.quantization_config_list opts)
    /\ length new
       = length (QuantizationConfigOptions.quantization_config_list opts)
    /\ (forall x, x ∈ new -> h !! qc = Some x)
    /\ (forall i op_cfg,
          QuantizationConfigOptions.quantization_config_list opts !! i
            = Some op_cfg ->
          exists c, built !! i = Some c
                    /\ single (length h + i)%nat fw_info axis op_cfg k = Ok c).
Proof.
  intros E.
  destruct (synth_one_attr _ _ _ _ _ _ _ _ E) as [k Hk]; [by simpl|].
  revert E. unfold _create_node_candidates_qc. rewrite Hk.
  unfold bind at 1, ret.
  destruct (append _ _ _ _ _ _ _) as [[cs0|e] h0] eqn:Ha; [|done].
  intros [= <- <-].
  apply append_ok_inv in Ha as (built & new & -> & -> & Hb & Hn & Hnew & Hbuilt).
  by exists k, built, new.
Qed.

(** ** The node pass *)

Lemma set_node_ok_inv qc fw_info tpc mp node h node' h' :
  set_node qc fw_info tpc mp (node, h) = (Ok tt, (node', h')) ->
  exists axis rest cs,
    DefaultDict.get (FrameworkInfo.kernel_channels_mapping fw_info)
      (BaseNode.type node)
      = Some (axis :: rest)
    /\ synth qc fw_info axis (BaseNode.get_qco node tpc) (BaseNode.type node)
         mp h = (Ok cs, h')
    /\ node' = BaseNode.set_candidates node (reconcile node fw_info <$> cs).
Proof.
  unfold set_quantization_configs_to_node.
  destruct (DefaultDict.get _ _) as [[|axis rest]|]; [done| |done].
  destruct (synth _ _ _ _ _ _ _) as [[cs|e] h0] eqn:E; [|done].
  rewrite reconcile_all_map. intros [= <- <-]. by exists axis, rest, cs.
Qed.

(** Whatever is raised, the node object is left as it was. *)
Lemma set_node_raise_inv qc fw_info tpc mp node h e node' h' :
  set_node qc fw_info tpc mp (node, h) = (Raise e, (node', h')) ->
  node' = node.
Proof.
  unfold set_quantization_configs_to_node.
  destruct (DefaultDict.get _ _) as [[|axis rest]|]; [congruence| |congruence].
  destruct (synth _ _ _ _ _ _ _) as [[cs|e0] h0]; congruence.
Qed.

(** ** The graph pass *)

Lemma for_nodes_ok_inv qc fw_info tpc mp done todo h ns h' :
  loop_nodes qc fw_info tpc mp done todo h = (Ok tt, (ns, h')) ->
  exists todo',
    ns = done ++ todo' /\ length todo' = length todo
    /\ forall i n, todo !! i = Some n ->
         exists n' hi hi',
           todo' !! i = Some n'
           /\ set_node qc fw_info tpc mp (n, hi) = (Ok tt, (n', hi')).
Proof.
  revert done h. induction todo as [|n rest IH]; intros done h; cbn [for_nodes].
  - intros [= <- <-]. exists []. rewrite app_nil_r. by repeat split.
  - destruct (set_node qc fw_info tpc mp (n, h)) as [[[]|e] [n' h0]] eqn:E; [|done].
    intros (todo' & -> & Hlen & Hall)%IH.
    exists (n' :: todo'). rewrite <- app_assoc. simpl.
    split; [done|]. split; [lia|].
    intros [|i] m Hm; simpl in *.
    + injection Hm as <-. by exists n', h, h0.
    + by apply Hall.
Qed.

End SynthesisFacts.

(** Sorting commutes with a map that keeps the keys. *)
Section SortReverseMap.
Context {A : Type} (key : A -> Z * Z) (f : A -> A).
Hypothesis key_f : forall x, key (f x) = key x.

Lemma insert_reverse_fmap (x : A) (l : list A) :
  f <$> insert_reverse key x l = insert_reverse key (f x) (f <$> l).
Proof using key_f.
  induction l as [|y l IH]; [done|].
  rewrite fmap_cons. cbn [insert_reverse]. rewrite !key_f.
  destruct (tuple_lt (key x) (key y)); [|done].
  by rewrite fmap_cons, IH.
Qed.

Lemma sort_reverse_fmap (l : list A) :
  f <$> sort_reverse key l = sort_reverse key (f <$> l).
Proof using key_f.
  unfold sort_reverse. induction l as [|x l IH]; [done|].
  rewrite fmap_cons. cbn [foldr]. by rewrite insert_reverse_fmap, IH.
Qed.

End SortReverseMap.

(** ** Properties of the attached candidate lists *)

Section Claims.
Context {QuantizationConfig : Type}.
Variable get_weights_quantization_fn :
  QuantizationMethod -> selection (option Callable).
Variable get_weights_quantization_params_fn :
  QuantizationMethod -> selection Callable.
Variable get_activation_quantization_params_fn :
  QuantizationMethod -> selection Callable.

Local Abbreviation single :=
  (_create_node_single_candidate_qc get_weights_quantization_fn
     get_weights_quantization_params_fn get_activation_quantization_params_fn).
Local Abbreviation synth :=
  (_create_node_candidates_qc (QuantizationConfig := QuantizationConfig)
     get_weights_quantization_fn
     get_weights_quantization_params_fn get_activation_quantization_params_fn).
Local Abbreviation set_node :=
  (set_quantization_configs_to_node (QuantizationConfig := QuantizationConfig)
     get_weights_quantization_fn
     get_weights_quantization_params_fn get_activation_quantization_params_fn).
Local Abbreviation set_graph :=
  (set_quantization_configuration_to_graph (QuantizationConfig := QuantizationConfig)
     get_weights_quantization_fn
     get_weights_quantization_params_fn get_activation_quantization_params_fn).
Local Abbreviation store := (list QuantizationConfig).
Local Abbreviation known :=
  (methods_known get_weights_quantization_fn
     get_weights_quantization_params_fn get_activation_quantization_params_fn).
Local Abbreviation w_cfg := CandidateNodeQuantizationConfig.weights_quantization_cfg.
Local Abbreviation a_cfg := CandidateNodeQuantizationConfig.activation_quantization_cfg.
Local Abbreviation cands := BaseNode.candidates_quantization_cfg.
Local Abbreviation w_bits c :=
  (NodeWeightsQuantizationConfig.weights_n_bits (w_cfg c)).
Local Abbreviation a_bits c :=
  (NodeActivationQuantizationConfig.activation_n_bits (a_cfg c)).
Local Abbreviation w_enable c :=
  (NodeWeightsQuantizationConfig.enable_weights_quantization (w_cfg c)).
Local Abbreviation a_enable c :=
  (NodeActivationQuantizationConfig.enable_activation_quantization (a_cfg c)).
Local Abbreviation config_list := QuantizationConfigOptions.quantization_config_list.
Local Abbreviation base_config := QuantizationConfigOptions.base_config.

(** Every synthesized candidate was built, with the one kernel attribute,
    from one of the options the mode reads. *)
Lemma synth_sources qc fw_info axis opts ty mp h cs h' c :
  synth qc fw_info axis opts ty mp h = (Ok cs, h') ->
  c ∈ cs ->
  exists k l op_cfg,
    FrameworkInfo.get_kernel_op_attributes fw_info ty = [k]
    /\ op_cfg ∈ options_used mp opts
    /\ single l fw_info axis op_cfg k = Ok c.
Proof.
  destruct mp.
  - intros (k & built & new & Hk & -> & _ & Hb & _ & _ & Hbuilt)%synth_ok_inv_mixed Hc.
    rewrite sort_reverse_perm in Hc.
    apply list_elem_of_lookup in Hc as [i Hi].
    destruct (lookup_lt_is_Some_2 (config_list opts) i) as [op Hop].
    { rewrite <- Hb. by eapply lookup_lt_Some. }
    destruct (Hbuilt i op Hop) as (c' & Hc' & Hs).
    exists k, (length h + i)%nat, op. split; [done|]. split.
    + by eapply list_elem_of_lookup_2.
    + congruence.
  - intros (k & c' & Hk & Hs & -> & _)%synth_ok_inv_single ->%list_elem_of_singleton.
    exists k, qc, (base_config opts). split; [done|]. split; [|done].
    simpl. by apply list_elem_of_singleton.
Qed.

(** Under mixed precision the policy objects of the candidates are the
    new objects of the store, one each. *)
Lemma synth_mixed_policies qc fw_info axis opts ty h cs h' :
  synth qc fw_info axis opts ty true h = (Ok cs, h') ->
  exists new,
    h' = h ++ new
    /\ (forall x, x ∈ new -> h !! qc = Some x)
    /\ (fun c => NodeWeightsQuantizationConfig.qc (w_cfg c)) <$> cs
       ≡ₚ seq (length h) (length new).
Proof.
  intros (k & built & new & Hk & -> & -> & Hb & Hn & Hnew & Hbuilt)%synth_ok_inv_mixed.
  exists new. split; [done|]. split; [done|].
  rewrite sort_reverse_perm.
  assert (Heq : (fun c => NodeWeightsQuantizationConfig.qc (w_cfg c)) <$> built
                = seq (length h) (length new)); [|by rewrite Heq].
  apply list_eq_same_length with (length new);
    [by rewrite length_seq | rewrite length_fmap; lia |].
  intros i x y Hi Hx Hy.
  apply lookup_seq in Hy as [-> _].
  rewrite list_lookup_fmap in Hx.
  destruct (lookup_lt_is_Some_2 (config_list opts) i) as [op Hop]; [lia|].
  destruct (Hbuilt i op Hop) as (c & Hc & Hs).
  rewrite Hc in Hx. injection Hx as <-.
  by destruct (single_fields _ _ _ _ _ _ _ _ _ Hs) as (-> & _).
Qed.

(** The ways the synthesizer raises. *)
Lemma synth_raise_inv qc fw_info axis opts ty mp h e h' :
  synth qc fw_info axis opts ty mp h = (Raise e, h') ->
  (e = AssertionError
   /\ length (FrameworkInfo.get_kernel_op_attributes fw_info ty) <> 1%nat
   /\ h' = h)
  \/ exists k,
       FrameworkInfo.get_kernel_op_attributes fw_info ty = [k]
       /\ ((e = DanglingReference /\ h !! qc = None /\ h' = h)
           \/ exists i op_cfg new,
                options_used mp opts !! i = Some op_cfg
                /\ single qc fw_info axis op_cfg k = Raise e
                /\ (forall j op', (j < i)%nat ->
                      options_used mp opts !! j = Some op' -> known fw_info op' k)
                /\ h' = h ++ new
                /\ (forall x, x ∈ new -> h !! qc = Some x)).
Proof.
  unfold _create_node_candidates_qc.
  destruct (FrameworkInfo.get_kernel_op_attributes fw_info ty) as [|k [|? ?]] eqn:Hk;
    [intros [= <- <-]; left; by simpl | | intros [= <- <-]; left; by simpl].
  intros E. right. exists k. split; [done|]. revert E. destruct mp.
  - unfold bind at 1, ret.
    destruct (append_candidates _ _ _ _ _ _ _ _ _ _) as [[cs0|e0] h0] eqn:Ha; [done|].
    intros [= <- <-].
    apply append_raise_inv in Ha
      as [(-> & Hnone & ->)|(i & op & new & Hop & Hs & Hprev & -> & _ & Hnew)].
    + by left.
    + right. exists i, op, new. split; [done|].
      split; [by eapply single_raise_indep|]. split; [exact Hprev|]. by split.
  - unfold bind, lift, ret.
    destruct (single _ _ _ _ _) as [c|e0] eqn:Hc; [done|].
    intros [= <- <-]. right. exists 0%nat, (base_config opts), [].
    rewrite app_nil_r. split; [done|]. split; [done|].
    split; [intros; lia|]. split; [done|]. by intros x ?%elem_of_nil.
Qed.

(** A successful synthesis found the methods of every option it read. *)
Lemma synth_ok_known qc fw_info axis opts ty mp h cs h' k :
  synth qc fw_info axis opts ty mp h = (Ok cs, h') ->
  FrameworkInfo.get_kernel_op_attributes fw_info ty = [k] ->
  forall op_cfg, op_cfg ∈ options_used mp opts -> known fw_info op_cfg k.
Proof.
  destruct mp; simpl.
  - intros (k' & built & new & Hk' & _ & _ & _ & _ & _ & Hbuilt)%synth_ok_inv_mixed
      Hk op [i Hi]%list_elem_of_lookup.
    assert (k' = k) as -> by congruence.
    destruct (Hbuilt i op Hi) as (c & _ & Hs). by eapply single_ok_known.
  - intros (k' & c & Hk' & Hs & _)%synth_ok_inv_single Hk op ->%list_elem_of_singleton.
    assert (k' = k) as -> by congruence. by eapply single_ok_known.
Qed.

(** C1. Under mixed precision the attached list is in descending order of
    (weights bits, activation bits): each candidate has more weights bits than
    its successor, or as many and at least as many activation bits.  The list
    is the stable sort of the candidates built entry by entry from
    [quantization_config_list]: for every pair of bit-widths, the candidates
    of that pair stand in the order of their entries. *)
Theorem candidates_sorted_descending_stable
    qc fw_info tpc node h node' h' :
  set_quantization_configs_to_node (QuantizationConfig := QuantizationConfig)
      get_weights_quantization_fn
      get_weights_quantization_params_fn get_activation_quantization_params_fn
      qc fw_info tpc true (node, h) = (Ok tt, (node', h')) ->
  (forall i a b,
      cands node' !! i = Some a -> cands node' !! S i = Some b ->
      w_bits a > w_bits b \/ (w_bits a = w_bits b /\ a_bits a >= a_bits b))
  /\ exists axis rest k built,
       DefaultDict.get (FrameworkInfo.kernel_channels_mapping fw_info)
      (BaseNode.type node)
         = Some (axis :: rest)
       /\ FrameworkInfo.get_kernel_op_attributes fw_info (BaseNode.type node) = [k]
       /\ length built = length (config_list (BaseNode.get_qco node tpc))
       /\ (forall i op_cfg,
             config_list (BaseNode.get_qco node tpc) !! i = Some op_cfg ->
             exists c,
               _create_node_single_candidate_qc
      get_weights_quantization_fn
      get_weights_quantization_params_fn get_activation_quantization_params_fn
      (length h + i)%nat fw_info axis op_cfg k = Ok c
               /\ built !! i = Some (reconcile node fw_info c))
       /\ cands node' ≡ₚ built
       /\ forall bits,
            filter (fun c => sort_key c = bits) (cands node')
            = filter (fun c => sort_key c = bits) built.
Proof.
  intros (axis & rest & cs & Hmap & Hs & ->)%set_node_ok_inv.
  apply synth_ok_inv_mixed
    in Hs as (k & built & new & Hk & -> & _ & Hb & _ & _ & Hbuilt).
  simpl.
  rewrite (sort_reverse_fmap sort_key (reconcile node fw_info)
             (sort_key_reconcile node fw_info)).
  split.
  - intros i a b Ha Hb'.
    pose proof (StronglySorted_adjacent (key_ge sort_key) _ i a b
                  (sort_reverse_sorted sort_key _) Ha Hb') as Hge.
    unfold key_ge in Hge. apply tuple_lt_false in Hge. simpl in Hge. lia.
  - exists axis, rest, k, (reconcile node fw_info <$> built).
    split; [done|]. split; [done|]. split; [by rewrite length_fmap|].
    split; [|split].
    + intros i op Hop. destruct (Hbuilt i op Hop) as (c & Hc & Hsc).
      exists c. split; [done|]. by rewrite list_lookup_fmap, Hc.
    + apply sort_reverse_perm.
    + intros bits. apply sort_reverse_stable.
Qed.

(** C2. With mixed precision disabled the attached list has exactly one
    candidate, the one built from [base_config] and the caller's policy
    object and then reconciled; the outcome does not depend on
    [quantization_config_list]. *)
Theorem single_candidate_from_base_config
    qc fw_info tpc node h node' h' :
  set_quantization_configs_to_node (QuantizationConfig := QuantizationConfig)
      get_weights_quantization_fn
      get_weights_quantization_params_fn get_activation_quantization_params_fn
      qc fw_info tpc false (node, h) = (Ok tt, (node', h')) ->
  length (cands node') = 1%nat
  /\ (exists axis rest k c,
        DefaultDict.get (FrameworkInfo.kernel_channels_mapping fw_info)
      (BaseNode.type node)
          = Some (axis :: rest)
        /\ FrameworkInfo.get_kernel_op_attributes fw_info (BaseNode.type node) = [k]
        /\ _create_node_single_candidate_qc
      get_weights_quantization_fn
      get_weights_quantization_params_fn get_activation_quantization_params_fn
      qc fw_info axis (base_config (BaseNode.get_qco node tpc)) k = Ok c
        /\ cands node' = [reconcile node fw_info c])
  /\ forall axis ty l (Hl : base_config (BaseNode.get_qco node tpc) ∈ l),
       _create_node_candidates_qc (QuantizationConfig := QuantizationConfig)
      get_weights_quantization_fn
      get_weights_quantization_params_fn get_activation_quantization_params_fn
      qc fw_info axis
         {| QuantizationConfigOptions.quantization_config_list := l;
            QuantizationConfigOptions.base_config :=
              base_config (BaseNode.get_qco node tpc);
            QuantizationConfigOptions.base_config_listed := Hl |} ty false h
       = _create_node_candidates_qc (QuantizationConfig := QuantizationConfig)
      get_weights_quantization_fn
      get_weights_quantization_params_fn get_activation_quantization_params_fn
      qc fw_info axis (BaseNode.get_qco node tpc) ty false h.
Proof.
  intros (axis & rest & cs & Hmap & Hs & ->)%set_node_ok_inv.
  apply synth_ok_inv_single in Hs as (k & c & Hk & Hc & -> & _).
  split; [done|]. split; [by exists axis, rest, k, c|].
  done.
Qed.

(** C3. Under mixed precision the attached list has one candidate per entry
    of [quantization_config_list]. *)
Theorem mixed_precision_cardinality qc fw_info tpc node h node' h' :
  set_quantization_configs_to_node (QuantizationConfig := QuantizationConfig)
      get_weights_quantization_fn
      get_weights_quantization_params_fn get_activation_quantization_params_fn
      qc fw_info tpc true (node, h) = (Ok tt, (node', h')) ->
  length (cands node') = length (config_list (BaseNode.get_qco node tpc)).
Proof.
  intros (axis & rest & cs & Hmap & Hs & ->)%set_node_ok_inv.
  apply synth_ok_inv_mixed in Hs as (k & built & new & _ & -> & _ & Hb & _).
  simpl. by rewrite length_fmap, sort_reverse_length.
Qed.

(** C4. After the node pass every attached candidate carries the enable flags
    its synthesis gave it (those of the resolved attribute config and of the
    option it was built from) ANDed with the node's structural answers, at
    every position of the list, one candidate or many; a node without
    weights to quantize has weights quantization disabled in every
    candidate, and likewise for activations. *)
Theorem enable_flags_reconciled qc fw_info tpc mp node h node' h' :
  set_quantization_configs_to_node (QuantizationConfig := QuantizationConfig)
      get_weights_quantization_fn
      get_weights_quantization_params_fn get_activation_quantization_params_fn
      qc fw_info tpc mp (node, h) = (Ok tt, (node', h')) ->
  exists axis rest cs,
    DefaultDict.get (FrameworkInfo.kernel_channels_mapping fw_info)
      (BaseNode.type node)
      = Some (axis :: rest)
    /\ _create_node_candidates_qc (QuantizationConfig := QuantizationConfig)
      get_weights_quantization_fn
      get_weights_quantization_params_fn get_activation_quantization_params_fn
      qc fw_info axis (BaseNode.get_qco node tpc) (BaseNode.type node)
         mp h = (Ok cs, h')
    /\ length (cands node') = length cs
    /\ (forall i c, cs !! i = Some c ->
          exists c' k l op_cfg,
            cands node' !! i = Some c'
            /\ op_cfg ∈ options_used mp (BaseNode.get_qco node tpc)
            /\ _create_node_single_candidate_qc
      get_weights_quantization_fn
      get_weights_quantization_params_fn get_activation_quantization_params_fn
      l fw_info axis op_cfg k = Ok c
            /\ w_enable c
               = AttributeQuantizationConfig.enable_weights_quantization
                   (resolve_weights_cfg op_cfg k)
            /\ a_enable c
               = OpQuantizationConfig.enable_activation_quantization op_cfg
            /\ w_enable c'
               = w_enable c && BaseNode.has_weights_to_quantize node fw_info
            /\ a_enable c' = a_enable c && BaseNode.get_has_activation node)
    /\ (BaseNode.has_weights_to_quantize node fw_info = false ->
        forall c', c' ∈ cands node' -> w_enable c' = false)
    /\ (BaseNode.get_has_activation node = false ->
        forall c', c' ∈ cands node' -> a_enable c' = false).
Proof.
  intros (axis & rest & cs & Hmap & Hs & ->)%set_node_ok_inv.
  exists axis, rest, cs. simpl.
  split; [done|]. split; [done|]. split; [by rewrite length_fmap|].
  split; [|split].
  - intros i c Hc.
    destruct (synth_sources _ _ _ _ _ _ _ _ _ c Hs) as (k & l & op & Hk & Hop & Hsc).
    { by eapply list_elem_of_lookup_2. }
    exists (reconcile node fw_info c), k, l, op.
    rewrite list_lookup_fmap, Hc.
    destruct (single_fields _ _ _ _ _ _ _ _ _ Hsc) as (_ & _ & _ & _ & Hw & Ha).
    by repeat split.
  - intros Hw c' (c & -> & _)%list_elem_of_fmap. simpl.
    rewrite Hw. apply andb_false_r.
  - intros Ha c' (c & -> & _)%list_elem_of_fmap. simpl.
    rewrite Ha. apply andb_false_r.
Qed.


(** C5. Under mixed precision every candidate is built from a policy object
    of its own: a new object of the store that holds a copy of the caller's
    policy, held by no other candidate and different from the caller's
    object.  Synthesis leaves every object that existed as it was; writing
    the policy object of one candidate, or replacing that candidate's own
    configs in the list, changes neither the policy object nor the configs of
    a sibling, nor the caller's policy object. *)
Theorem mixed_precision_policies_isolated qc fw_info axis opts ty h cs h' :
  _create_node_candidates_qc (QuantizationConfig := QuantizationConfig)
      get_weights_quantization_fn
      get_weights_quantization_params_fn get_activation_quantization_params_fn
      qc fw_info axis opts ty true h = (Ok cs, h') ->
  (forall l, (l < length h)%nat -> h' !! l = h !! l)
  /\ (forall c, c ∈ cs ->
        NodeActivationQuantizationConfig.qc (a_cfg c)
        = NodeWeightsQuantizationConfig.qc (w_cfg c)
        /\ (qc < length h <= NodeWeightsQuantizationConfig.qc (w_cfg c))%nat
        /\ is_Some (h !! qc)
        /\ h' !! NodeWeightsQuantizationConfig.qc (w_cfg c) = h !! qc)
  /\ (forall i j ci cj,
        i <> j -> cs !! i = Some ci -> cs !! j = Some cj ->
        NodeWeightsQuantizationConfig.qc (w_cfg ci)
        <> NodeWeightsQuantizationConfig.qc (w_cfg cj))
  /\ (forall i ci v c',
        cs !! i = Some ci ->
        <[NodeWeightsQuantizationConfig.qc (w_cfg ci) := v]> h'
          !! NodeWeightsQuantizationConfig.qc (w_cfg ci) = Some v
        /\ <[NodeWeightsQuantizationConfig.qc (w_cfg ci) := v]> h' !! qc = h !! qc
        /\ forall j cj,
             j <> i -> cs !! j = Some cj ->
             <[NodeWeightsQuantizationConfig.qc (w_cfg ci) := v]> h'
               !! NodeWeightsQuantizationConfig.qc (w_cfg cj)
             = h' !! NodeWeightsQuantizationConfig.qc (w_cfg cj)
             /\ <[i := c']> cs !! j = Some cj).
Proof.
  intros E.
  destruct (synth_mixed_policies _ _ _ _ _ _ _ _ E) as (new & -> & Hnew & Hperm).
  assert (Hrange : forall c, c ∈ cs ->
            (length h <= NodeWeightsQuantizationConfig.qc (w_cfg c)
             < length h + length new)%nat).
  { intros c Hc.
    assert (Hin : NodeWeightsQuantizationConfig.qc (w_cfg c)
                  ∈ seq (length h) (length new)).
    { rewrite <- Hperm. apply list_elem_of_fmap. by exists c. }
    apply elem_of_seq in Hin. lia. }
  assert (Hcopy : forall c, c ∈ cs ->
            (h ++ new) !! NodeWeightsQuantizationConfig.qc (w_cfg c) = h !! qc
            /\ is_Some (h !! qc)).
  { intros c Hc. destruct (Hrange c Hc) as [Hlo Hhi].
    rewrite lookup_app_r by lia.
    destruct (lookup_lt_is_Some_2 new
                (NodeWeightsQuantizationConfig.qc (w_cfg c) - length h))
      as [x Hx]; [lia|].
    rewrite Hx. apply list_elem_of_lookup_2, Hnew in Hx. by rewrite Hx. }
  assert (Hdistinct : forall i j ci cj,
            i <> j -> cs !! i = Some ci -> cs !! j = Some cj ->
            NodeWeightsQuantizationConfig.qc (w_cfg ci)
            <> NodeWeightsQuantizationConfig.qc (w_cfg cj)).
  { intros i j ci cj Hij Hi Hj Heq. apply Hij.
    assert (Hnd : NoDup ((fun c => NodeWeightsQuantizationConfig.qc (w_cfg c))
                           <$> cs)).
    { rewrite Hperm. apply NoDup_seq. }
    eapply NoDup_lookup; [exact Hnd | |].
    - rewrite list_lookup_fmap, Hi. reflexivity.
    - rewrite list_lookup_fmap, Hj. simpl. by rewrite Heq. }
  split; [intros l Hl; by rewrite lookup_app_l|]. split; [|split; [done|]].
  - intros c Hc. destruct (Hcopy c Hc) as [Hcp Hsome].
    destruct (synth_sources _ _ _ _ _ _ _ _ _ c E Hc) as (k & l & op & _ & _ & Hs).
    destruct (single_fields _ _ _ _ _ _ _ _ _ Hs) as (Hw & Ha & _).
    split; [congruence|]. split; [|done].
    destruct Hsome as [x Hx%lookup_lt_Some].
    assert (Hr := Hrange c Hc). lia.
  - intros i ci v c' Hi.
    assert (Hci : ci ∈ cs) by by eapply list_elem_of_lookup_2.
    destruct (Hrange ci Hci) as [Hlo Hhi].
    destruct (Hcopy ci Hci) as [_ [x Hx]].
    pose proof (lookup_lt_Some _ _ _ Hx) as Hqc.
    split; [|split].
    + apply list_lookup_insert_eq. rewrite length_app. lia.
    + rewrite list_lookup_insert_ne by lia. by rewrite lookup_app_l.
    + intros j cj Hji Hj. split.
      * rewrite list_lookup_insert_ne; [done|].
        by apply (Hdistinct i j ci cj).
      * rewrite list_lookup_insert_ne; [done|]. congruence.
Qed.


(** C6. Synthesis raises the assertion exactly when the adapter's
    kernel-attribute resolution for the node type does not return one name;
    when it returns the one name [k], every candidate synthesized was built
    with [k] as its kernel attribute. *)
Theorem kernel_attribute_assertion qc fw_info axis opts ty mp h :
  (length (FrameworkInfo.get_kernel_op_attributes fw_info ty) <> 1%nat ->
   _create_node_candidates_qc (QuantizationConfig := QuantizationConfig)
      get_weights_quantization_fn
      get_weights_quantization_params_fn get_activation_quantization_params_fn
      qc fw_info axis opts ty mp h = (Raise AssertionError, h))
  /\ (forall k,
        FrameworkInfo.get_kernel_op_attributes fw_info ty = [k] ->
        fst (_create_node_candidates_qc (QuantizationConfig := QuantizationConfig)
      get_weights_quantization_fn
      get_weights_quantization_params_fn get_activation_quantization_params_fn
      qc fw_info axis opts ty mp h) <> Raise AssertionError
        /\ forall cs h' c,
             _create_node_candidates_qc (QuantizationConfig := QuantizationConfig)
      get_weights_quantization_fn
      get_weights_quantization_params_fn get_activation_quantization_params_fn
      qc fw_info axis opts ty mp h = (Ok cs, h') -> c ∈ cs ->
             exists l op_cfg,
               op_cfg ∈ options_used mp opts
               /\ _create_node_single_candidate_qc
      get_weights_quantization_fn
      get_weights_quantization_params_fn get_activation_quantization_params_fn
      l fw_info axis op_cfg k = Ok c
               /\ NodeWeightsQuantizationConfig.weights_n_bits (w_cfg c)
                  = AttributeQuantizationConfig.weights_n_bits
                      (default (OpQuantizationConfig.default_weight_attr_config op_cfg)
                         (OpQuantizationConfig.attr_weights_configs_mapping op_cfg
                            !! k))).
Proof.
  split; [apply synth_assertion|].
  intros k Hk. split.
  - destruct (synth qc fw_info axis opts ty mp h) as [[cs|e] h'] eqn:E; [done|].
    simpl. intros [= ->].
    apply synth_raise_inv in E as [(_ & Hlen & _)|(k' & _ & [(He & _)|(i & op & new & _ & Hs & _)])].
    + by rewrite Hk in Hlen.
    + done.
    + by apply single_raise_class in Hs as [msg [?|?]].
  - intros cs h' c E Hc.
    destruct (synth_sources _ _ _ _ _ _ _ _ _ c E Hc) as (k' & l & op & Hk' & Hop & Hs).
    assert (k' = k) as -> by congruence.
    exists l, op. split; [done|]. split; [done|].
    by destruct (single_fields _ _ _ _ _ _ _ _ _ Hs) as (_ & _ & -> & _).
Qed.


(** C10, as the code has it.  For a node whose type the kernel-channel
    mapping does not list, the lookup of line 79 returns the mapping's
    default value.  When that default is None the subscript raises
    [TypeError] before any synthesis, with node and store as they were, and
    this is the only way the pass raises it; when the default is a non-empty
    sequence no [TypeError] is raised, and the first element of the default
    is the weights channel axis of every candidate a completed pass
    attaches. *)
Theorem unlisted_type_gets_default qc fw_info tpc mp node h :
  DefaultDict.contents (FrameworkInfo.kernel_channels_mapping fw_info)
    !! BaseNode.type node = None ->
  (DefaultDict.default_value (FrameworkInfo.kernel_channels_mapping fw_info)
     = None ->
   set_quantization_configs_to_node (QuantizationConfig := QuantizationConfig)
      get_weights_quantization_fn
      get_weights_quantization_params_fn get_activation_quantization_params_fn
      qc fw_info tpc mp (node, h) = (Raise TypeError, (node, h)))
  /\ (forall node' h',
        set_quantization_configs_to_node (QuantizationConfig := QuantizationConfig)
      get_weights_quantization_fn
      get_weights_quantization_params_fn get_activation_quantization_params_fn
      qc fw_info tpc mp (node, h) = (Raise TypeError, (node', h')) ->
        DefaultDict.default_value (FrameworkInfo.kernel_channels_mapping fw_info)
        = None)
  /\ (forall axis rest,
        DefaultDict.default_value (FrameworkInfo.kernel_channels_mapping fw_info)
        = Some (axis :: rest) ->
        forall node' h',
          set_quantization_configs_to_node (QuantizationConfig := QuantizationConfig)
      get_weights_quantization_fn
      get_weights_quantization_params_fn get_activation_quantization_params_fn
      qc fw_info tpc mp (node, h) = (Ok tt, (node', h')) ->
          forall c, c ∈ cands node' ->
            NodeWeightsQuantizationConfig.weights_channels_axis (w_cfg c) = axis).
Proof.
  intros Hunlisted.
  assert (Hget : DefaultDict.get (FrameworkInfo.kernel_channels_mapping fw_info)
                   (BaseNode.type node)
                 = DefaultDict.default_value
                     (FrameworkInfo.kernel_channels_mapping fw_info)).
  { unfold DefaultDict.get. unfold NodeType in *. by rewrite Hunlisted. }
  split; [|split].
  - intros Hnone. unfold set_quantization_configs_to_node.
    by rewrite Hget, Hnone.
  - intros node' h'. unfold set_quantization_configs_to_node. rewrite Hget.
    destruct (DefaultDict.default_value _) as [[|axis rest]|]; [done| |done].
    destruct (synth _ _ _ _ _ _ _) as [[cs|e0] h0] eqn:E; [done|].
    intros [= -> <- <-].
    apply synth_raise_inv in E
      as [(? & _)|(k & _ & [(? & _)|(i & op & new & _ & Hs & _)])];
      [done | done |].
    by apply single_raise_class in Hs as [msg [?|?]].
  - intros axis rest Hdef node' h'
      (axis' & rest' & cs & Hmap & Hs & ->)%set_node_ok_inv.
    assert (axis' = axis) as -> by congruence.
    intros c' (c & -> & Hc)%list_elem_of_fmap.
    destruct (synth_sources _ _ _ _ _ _ _ _ _ c Hs Hc) as (k & l & op & _ & _ & Hsc).
    by apply single_ok_inv in Hsc as (wfn & wpfn & afn & apfn & _ & _ & _ & _ & ->).
Qed.

Lemma set_node_length qc fw_info tpc mp node h node' h' :
  set_node qc fw_info tpc mp (node, h) = (Ok tt, (node', h')) ->
  length (cands node') = length (options_used mp (BaseNode.get_qco node tpc)).
Proof.
  intros (axis & rest & cs & Hmap & Hs & ->)%set_node_ok_inv. simpl.
  rewrite length_fmap. destruct mp; simpl.
  - apply synth_ok_inv_mixed in Hs as (k & built & new & _ & -> & _ & Hb & _).
    by rewrite sort_reverse_length.
  - by apply synth_ok_inv_single in Hs as (k & c & _ & _ & -> & _).
Qed.

Lemma options_used_nonempty mp (opts : QuantizationConfigOptions.t) :
  options_used mp opts <> [].
Proof.
  destruct mp; simpl; [|done].
  pose proof (QuantizationConfigOptions.base_config_listed opts) as Hin.
  intros Hnil. rewrite Hnil in Hin. by apply elem_of_nil in Hin.
Qed.

(** C8. When the graph pass completes, it returns the graph it was given
    with as many nodes, and every node of it carries a non-empty candidate
    list: one candidate with mixed precision disabled, and one per entry of
    the node's [quantization_config_list], which holds the base config, with
    it enabled. *)
Theorem every_node_candidate_count qc mp graph h graph' s' :
  set_quantization_configuration_to_graph
      (QuantizationConfig := QuantizationConfig)
      get_weights_quantization_fn
      get_weights_quantization_params_fn get_activation_quantization_params_fn
      qc mp (graph, h) = (Ok graph', s') ->
  fst s' = graph'
  /\ length (Graph.nodes graph') = length (Graph.nodes graph)
  /\ (forall n', n' ∈ Graph.nodes graph' -> cands n' <> [])
  /\ forall i n,
       Graph.nodes graph !! i = Some n ->
       exists n',
         Graph.nodes graph' !! i = Some n'
         /\ cands n' <> []
         /\ length (cands n')
            = length (options_used mp (BaseNode.get_qco n (Graph.tpc graph))).
Proof.
  unfold set_quantization_configuration_to_graph.
  destruct (for_nodes _ _ _ _ _ _ _ _ _ _) as [[[]|e] [ns h0]] eqn:E; [|done].
  intros [= <- <-].
  apply for_nodes_ok_inv in E as (todo' & -> & Hlen & Hall).
  simpl. split; [done|]. split; [done|].
  assert (Hnodes : forall i n,
            Graph.nodes graph !! i = Some n ->
            exists n',
              todo' !! i = Some n' /\ cands n' <> []
              /\ length (cands n')
                 = length (options_used mp (BaseNode.get_qco n (Graph.tpc graph)))).
  { intros i n Hn. destruct (Hall i n Hn) as (n' & hi & hi' & Hn' & Hrun).
    exists n'. split; [done|].
    apply set_node_length in Hrun. split; [|done].
    rewrite <- length_zero_iff_nil, Hrun, length_zero_iff_nil.
    apply options_used_nonempty. }
  split; [|done].
  intros n' [i Hi]%list_elem_of_lookup.
  destruct (lookup_lt_is_Some_2 (Graph.nodes graph) i) as [n Hn].
  { rewrite <- Hlen. by eapply lookup_lt_Some. }
  destruct (Hnodes i n Hn) as (n'' & Hn'' & Hne & _). congruence.
Qed.

End Claims.

(** ** The theorems at concrete inputs *)

(** Scenario A: the pairs (8,8), (4,8), (8,4), (2,2) come out as
    (8,8), (8,4), (4,8), (2,2). *)
Example scenario_A :
  map sort_key
      (BaseNode.candidates_quantization_cfg
         (Examples.run_node Examples.conv true).2.1)
  = [(8, 8); (8, 4); (4, 8); (2, 2)].
Proof. by vm_compute. Qed.

(** Scenario B: without mixed precision, the base config (8,8) alone. *)
Example scenario_B :
  map sort_key
      (BaseNode.candidates_quantization_cfg
         (Examples.run_node Examples.conv false).2.1)
  = [(8, 8)].
Proof. by vm_compute. Qed.

Lemma candidates_sorted_descending_stable_witness :
  Examples.run_node Examples.conv_ties true
  = (Ok tt, (Examples.run_node Examples.conv_ties true).2)
  /\ forall i a b,
       BaseNode.candidates_quantization_cfg
         (Examples.run_node Examples.conv_ties true).2.1 !! i = Some a ->
       BaseNode.candidates_quantization_cfg
         (Examples.run_node Examples.conv_ties true).2.1 !! S i = Some b ->
       (sort_key a).1 > (sort_key b).1
       \/ ((sort_key a).1 = (sort_key b).1 /\ (sort_key a).2 >= (sort_key b).2).
Proof.
  split; [by vm_compute|].
  apply (candidates_sorted_descending_stable (QuantizationConfig := Examples.policy)
           Examples.weights_fn Examples.weights_params_fn
           Examples.activation_params_fn 0%nat Examples.fw Examples.tpc
           Examples.conv_ties Examples.h0
           (Examples.run_node Examples.conv_ties true).2.1
           (Examples.run_node Examples.conv_ties true).2.2).
  by vm_compute.
Defined.

Lemma single_candidate_from_base_config_witness :
  Examples.run_node Examples.conv false
  = (Ok tt, (Examples.run_node Examples.conv false).2)
  /\ length (BaseNode.candidates_quantization_cfg
               (Examples.run_node Examples.conv false).2.1) = 1%nat.
Proof.
  split; [by vm_compute|].
  apply (single_candidate_from_base_config (QuantizationConfig := Examples.policy)
           Examples.weights_fn Examples.weights_params_fn
           Examples.activation_params_fn 0%nat Examples.fw Examples.tpc
           Examples.conv Examples.h0
           (Examples.run_node Examples.conv false).2.1
           (Examples.run_node Examples.conv false).2.2).
  by vm_compute.
Defined.

Lemma mixed_precision_cardinality_witness :
  Examples.run_node Examples.conv true
  = (Ok tt, (Examples.run_node Examples.conv true).2)
  /\ length (BaseNode.candidates_quantization_cfg
               (Examples.run_node Examples.conv true).2.1) = 4%nat.
Proof.
  split; [by vm_compute|].
  apply (mixed_precision_cardinality (QuantizationConfig := Examples.policy)
           Examples.weights_fn Examples.weights_params_fn
           Examples.activation_params_fn 0%nat Examples.fw Examples.tpc
           Examples.conv Examples.h0
           (Examples.run_node Examples.conv true).2.1
           (Examples.run_node Examples.conv true).2.2).
  by vm_compute.
Defined.

(** Scenario C: on an activation-only node every candidate has weights
    quantization disabled, though every option enables it. *)
Lemma enable_flags_reconciled_witness :
  Examples.run_node Examples.relu true
  = (Ok tt, (Examples.run_node Examples.relu true).2)
  /\ forall c',
       c' ∈ BaseNode.candidates_quantization_cfg
              (Examples.run_node Examples.relu true).2.1 ->
       NodeWeightsQuantizationConfig.enable_weights_quantization
         (CandidateNodeQuantizationConfig.weights_quantization_cfg c') = false.
Proof.
  split; [by vm_compute|].
  destruct (enable_flags_reconciled (QuantizationConfig := Examples.policy)
              Examples.weights_fn Examples.weights_params_fn
              Examples.activation_params_fn 0%nat Examples.fw Examples.tpc true
              Examples.relu Examples.h0
              (Examples.run_node Examples.relu true).2.1
              (Examples.run_node Examples.relu true).2.2)
    as (axis & rest & cs & _ & _ & _ & _ & Hw & _); [by vm_compute|].
  by apply Hw.
Defined.

Lemma mixed_precision_policies_isolated_witness :
  Examples.run_synth "Conv2D" Examples.options_A true
  = (Ok (value_or [] (Examples.run_synth "Conv2D" Examples.options_A true).1),
     (Examples.run_synth "Conv2D" Examples.options_A true).2)
  /\ forall i j ci cj,
       i <> j ->
       value_or [] (Examples.run_synth "Conv2D" Examples.options_A true).1 !! i
         = Some ci ->
       value_or [] (Examples.run_synth "Conv2D" Examples.options_A true).1 !! j
         = Some cj ->
       NodeWeightsQuantizationConfig.qc
         (CandidateNodeQuantizationConfig.weights_quantization_cfg ci)
       <> NodeWeightsQuantizationConfig.qc
            (CandidateNodeQuantizationConfig.weights_quantization_cfg cj).
Proof.
  split; [by vm_compute|].
  destruct (mixed_precision_policies_isolated (QuantizationConfig := Examples.policy)
              Examples.weights_fn Examples.weights_params_fn
              Examples.activation_params_fn 0%nat Examples.fw (Some 3)
              Examples.options_A "Conv2D" Examples.h0
              (value_or [] (Examples.run_synth "Conv2D" Examples.options_A true).1)
              (Examples.run_synth "Conv2D" Examples.options_A true).2)
    as (_ & _ & Hdistinct & _); [by vm_compute|].
  exact Hdistinct.
Defined.



Lemma kernel_attribute_assertion_witness :
  (length (FrameworkInfo.get_kernel_op_attributes Examples.fw "Dense") <> 1%nat
   /\ Examples.run_synth "Dense" Examples.options_A true
      = (Raise AssertionError, Examples.h0))
  /\ (FrameworkInfo.get_kernel_op_attributes Examples.fw "Conv2D" = ["kernel"]
      /\ (Examples.run_synth "Conv2D" Examples.options_A true).1
         <> Raise AssertionError).
Proof.
  split.
  - assert (H : length (FrameworkInfo.get_kernel_op_attributes Examples.fw "Dense")
                <> 1%nat) by (vm_compute; lia).
    split; [exact H|].
    exact (proj1 (kernel_attribute_assertion (QuantizationConfig := Examples.policy)
                    Examples.weights_fn Examples.weights_params_fn
                    Examples.activation_params_fn 0%nat Examples.fw (Some 3)
                    Examples.options_A "Dense" true Examples.h0) H).
  - assert (H : FrameworkInfo.get_kernel_op_attributes Examples.fw "Conv2D"
                = ["kernel"]) by (by vm_compute).
    split; [exact H|].
    exact (proj1 (proj2 (kernel_attribute_assertion
                           (QuantizationConfig := Examples.policy)
                           Examples.weights_fn Examples.weights_params_fn
                           Examples.activation_params_fn 0%nat Examples.fw (Some 3)
                           Examples.options_A "Conv2D" true Examples.h0)
                          "kernel" H)).
Defined.



Lemma every_node_candidate_count_witness :
  Examples.run_graph [Examples.conv; Examples.relu] true
  = (Ok (Examples.run_graph [Examples.conv; Examples.relu] true).2.1,
     (Examples.run_graph [Examples.conv; Examples.relu] true).2)
  /\ length (Graph.nodes (Examples.run_graph [Examples.conv; Examples.relu] true).2.1)
     = 2%nat.
Proof.
  split; [by vm_compute|].
  apply (every_node_candidate_count (QuantizationConfig := Examples.policy)
           Examples.weights_fn Examples.weights_params_fn
           Examples.activation_params_fn 0%nat true
           (Examples.graph_of [Examples.conv; Examples.relu]) Examples.h0
           (Examples.run_graph [Examples.conv; Examples.relu] true).2.1
           (Examples.run_graph [Examples.conv; Examples.relu] true).2).
  by vm_compute.
Defined.

Lemma unlisted_type_gets_default_witness :
  (DefaultDict.contents (FrameworkInfo.kernel_channels_mapping
                           Examples.fw_none_default)
     !! BaseNode.type Examples.relu = None
   /\ DefaultDict.default_value
        (FrameworkInfo.kernel_channels_mapping Examples.fw_none_default) = None)
  /\ Examples.run_node_in Examples.fw_none_default Examples.relu true
     = (Raise TypeError, (Examples.relu, Examples.h0)).
Proof.
  assert (H : DefaultDict.contents (FrameworkInfo.kernel_channels_mapping
                                      Examples.fw_none_default)
                !! BaseNode.type Examples.relu = None) by (by vm_compute).
  split; [by split|].
  exact (proj1 (unlisted_type_gets_default (QuantizationConfig := Examples.policy)
                  Examples.weights_fn Examples.weights_params_fn
                  Examples.activation_params_fn 0%nat Examples.fw_none_default
                  Examples.tpc true Examples.relu Examples.h0 H) eq_refl).
Defined.

(** C10 as stated fails: the kernel-channel mapping does not list the type
    [ReLU], its lookup answers with the default (None, None), and the pass
    completes with four candidates instead of raising [TypeError]. *)
Lemma unlisted_type_completes :
  DefaultDict.contents (FrameworkInfo.kernel_channels_mapping Examples.fw)
    !! BaseNode.type Examples.relu = None
  /\ (Examples.run_node Examples.relu true).1 = Ok tt
  /\ length (BaseNode.candidates_quantization_cfg
               (Examples.run_node Examples.relu true).2.1) = 4%nat.
Proof. repeat split; by vm_compute. Qed.

(** Stability at a concrete input: of the two (8,8) entries of
    [options_ties], the one listed first (policy object 2) stays in front of
    the one listed last (policy object 3). *)
Example ties_keep_list_order :
  map (fun c => (sort_key c,
                 NodeWeightsQuantizationConfig.qc
                   (CandidateNodeQuantizationConfig.weights_quantization_cfg c)))
      (BaseNode.candidates_quantization_cfg
         (Examples.run_node Examples.conv_ties true).2.1)
  = [((8, 8), 2%nat); ((8, 8), 3%nat); ((4, 8), 1%nat)].
Proof. by vm_compute. Qed.

(** ** Further properties of the module *)

Lemma StronglySorted_lookup_lt {A} (R : A -> A -> Prop) (l : list A)
    (i j : nat) (x y : A) :
  StronglySorted R l -> (i < j)%nat ->
  l !! i = Some x -> l !! j = Some y -> R x y.
Proof.
  intros Hl. revert i j. induction Hl as [|z l Hl IH Hz]; intros i j Hij Hx Hy; [done|].
  destruct j as [|j]; [lia|]. destruct i as [|i]; simpl in *.
  - injection Hx as ->. rewrite Forall_forall in Hz. apply Hz.
    by eapply list_elem_of_lookup_2.
  - apply (IH i j); [lia | done | done].
Qed.

Section Extras.
Context {QuantizationConfig : Type}.
Variable get_weights_quantization_fn :
  QuantizationMethod -> selection (option Callable).
Variable get_weights_quantization_params_fn :
  QuantizationMethod -> selection Callable.
Variable get_activation_quantization_params_fn :
  QuantizationMethod -> selection Callable.

Local Abbreviation single :=
  (_create_node_single_candidate_qc get_weights_quantization_fn
     get_weights_quantization_params_fn get_activation_quantization_params_fn).
Local Abbreviation append :=
  (append_candidates (QuantizationConfig := QuantizationConfig)
     get_weights_quantization_fn
     get_weights_quantization_params_fn get_activation_quantization_params_fn).
Local Abbreviation synth :=
  (_create_node_candidates_qc (QuantizationConfig := QuantizationConfig)
     get_weights_quantization_fn
     get_weights_quantization_params_fn get_activation_quantization_params_fn).
Local Abbreviation set_node :=
  (set_quantization_configs_to_node (QuantizationConfig := QuantizationConfig)
     get_weights_quantization_fn
     get_weights_quantization_params_fn get_activation_quantization_params_fn).
Local Abbreviation set_graph :=
  (set_quantization_configuration_to_graph (QuantizationConfig := QuantizationConfig)
     get_weights_quantization_fn
     get_weights_quantization_params_fn get_activation_quantization_params_fn).
Local Abbreviation loop_nodes :=
  (for_nodes (QuantizationConfig := QuantizationConfig)
     get_weights_quantization_fn
     get_weights_quantization_params_fn get_activation_quantization_params_fn).
Local Abbreviation activation_qc :=
  (create_node_activation_qc get_activation_quantization_params_fn).
Local Abbreviation store := (list QuantizationConfig).
Local Abbreviation known :=
  (methods_known get_weights_quantization_fn
     get_weights_quantization_params_fn get_activation_quantization_params_fn).
Local Abbreviation w_cfg := CandidateNodeQuantizationConfig.weights_quantization_cfg.
Local Abbreviation a_cfg := CandidateNodeQuantizationConfig.activation_quantization_cfg.
Local Abbreviation cands := BaseNode.candidates_quantization_cfg.
Local Abbreviation policy_of c := (NodeWeightsQuantizationConfig.qc (w_cfg c)).
Local Abbreviation config_list := QuantizationConfigOptions.quantization_config_list.
Local Abbreviation base_config := QuantizationConfigOptions.base_config.
Local Abbreviation one_attr :=
  (synth_one_attr (QuantizationConfig := QuantizationConfig) get_weights_quantization_fn
     get_weights_quantization_params_fn get_activation_quantization_params_fn).
Local Abbreviation sources :=
  (synth_sources (QuantizationConfig := QuantizationConfig) get_weights_quantization_fn
     get_weights_quantization_params_fn get_activation_quantization_params_fn).
Local Abbreviation assertion :=
  (synth_assertion (QuantizationConfig := QuantizationConfig) get_weights_quantization_fn
     get_weights_quantization_params_fn get_activation_quantization_params_fn).

(** X1. [create_node_activation_qc] succeeds exactly when the activation
    quantizer dict lists the option's method and the activation params
    selector selects a function for it; a method the dict does not list
    raises the critical error for activations, and a failing params selector
    its own error, whatever the weights lookups would give.  Whenever the
    candidate builder succeeds on the same policy and option,
    [create_node_activation_qc] returns the activation config of that
    candidate; and when it raises, so does the candidate builder. *)
Theorem create_node_activation_qc_agrees qc fw_info axis op_cfg k :
  ((exists a, create_node_activation_qc get_activation_quantization_params_fn
      qc fw_info op_cfg = Ok a)
   <-> is_Some (FrameworkInfo.activation_quantizer_mapping fw_info
                  !! OpQuantizationConfig.activation_quantization_method op_cfg)
       /\ exists f,
            get_activation_quantization_params_fn
              (OpQuantizationConfig.activation_quantization_method op_cfg)
            = Selected f)
  /\ (FrameworkInfo.activation_quantizer_mapping fw_info
        !! OpQuantizationConfig.activation_quantization_method op_cfg = None ->
      create_node_activation_qc get_activation_quantization_params_fn
      qc fw_info op_cfg
      = Raise (CriticalError "Unknown quantization method for activations"))
  /\ (forall msg,
        is_Some (FrameworkInfo.activation_quantizer_mapping fw_info
                   !! OpQuantizationConfig.activation_quantization_method op_cfg) ->
        get_activation_quantization_params_fn
          (OpQuantizationConfig.activation_quantization_method op_cfg)
        = NoSelection msg ->
        create_node_activation_qc get_activation_quantization_params_fn
      qc fw_info op_cfg
        = Raise (SelectionError msg))
  /\ (forall c,
        _create_node_single_candidate_qc
      get_weights_quantization_fn
      get_weights_quantization_params_fn get_activation_quantization_params_fn
      qc fw_info axis op_cfg k = Ok c ->
        create_node_activation_qc get_activation_quantization_params_fn
      qc fw_info op_cfg = Ok (a_cfg c))
  /\ (forall e,
        create_node_activation_qc get_activation_quantization_params_fn
      qc fw_info op_cfg = Raise e ->
        exists e',
          _create_node_single_candidate_qc
      get_weights_quantization_fn
      get_weights_quantization_params_fn get_activation_quantization_params_fn
      qc fw_info axis op_cfg k = Raise e').
Proof.
  unfold create_node_activation_qc, Logger_critical, select.
  split; [|split; [|split; [|split]]].
  - destruct (_ !! _) as [afn|];
      [destruct (get_activation_quantization_params_fn _) as [f|msg]|]; split.
    + intros _. split; eauto.
    + eauto.
    + by intros [a Ha].
    + by intros (_ & f & Hf).
    + by intros [a Ha].
    + by intros ([x Hx] & _).
  - by intros ->.
  - by intros msg [afn ->] ->.
  - intros c (wfn & wpfn & afn & apfn & _ & _ & -> & -> & ->)%single_ok_inv. done.
  - intros e He.
    destruct (single qc fw_info axis op_cfg k) as [c|e'] eqn:Hs; [|by eauto].
    apply single_ok_inv in Hs
      as (wfn & wpfn & afn & apfn & _ & _ & Ha & Hap & _).
    by rewrite Ha, Hap in He.
Qed.

Lemma set_node_ok_iff qc fw_info tpc mp node h :
  (exists node' h', set_node qc fw_info tpc mp (node, h) = (Ok tt, (node', h')))
  <-> (exists axis rest k,
         DefaultDict.get (FrameworkInfo.kernel_channels_mapping fw_info)
      (BaseNode.type node)
           = Some (axis :: rest)
         /\ FrameworkInfo.get_kernel_op_attributes fw_info (BaseNode.type node)
            = [k]
         /\ Forall (fun op_cfg => known fw_info op_cfg k)
              (options_used mp (BaseNode.get_qco node tpc))
         /\ (mp = true -> config_list (BaseNode.get_qco node tpc) <> [] ->
             is_Some (h !! qc))).
Proof.
  split.
  - intros (node' & h' & (axis & rest & cs & Hmap & Hs & _)%set_node_ok_inv).
    destruct (one_attr _ _ _ _ _ _ _ _ Hs) as [k Hk]; [by simpl|].
    exists axis, rest, k. split; [done|]. split; [done|]. split.
    + apply Forall_forall. intros op Hop.
      by eapply (synth_ok_known (QuantizationConfig := QuantizationConfig)).
    + intros -> Hne.
      apply synth_ok_inv_mixed in Hs as (k' & built & new & _ & _ & _ & _ & Hn & Hnew & _).
      destruct new as [|x new].
      { destruct (config_list (BaseNode.get_qco node tpc)); [done|simpl in Hn; lia]. }
      exists x. apply Hnew. left.
  - intros (axis & rest & k & Hmap & Hk & Hknown & Hqc).
    unfold set_quantization_configs_to_node. rewrite Hmap.
    unfold _create_node_candidates_qc. rewrite Hk. destruct mp; simpl in *.
    + unfold bind at 1, ret.
      destruct (config_list (BaseNode.get_qco node tpc)) as [|op l] eqn:Hl.
      { simpl. eauto. }
      destruct Hqc as [v Hv]; [done | done |].
      destruct (append_ok get_weights_quantization_fn
                  get_weights_quantization_params_fn
                  get_activation_quantization_params_fn
                  qc fw_info axis k (op :: l) [] h v Hv Hknown) as [cs ->].
      eauto.
    + rewrite Forall_singleton in Hknown.
      destruct (single_known_ok get_weights_quantization_fn
                  get_weights_quantization_params_fn
                  get_activation_quantization_params_fn
                  qc fw_info axis _ k Hknown) as [c Hc].
      unfold bind, lift, ret. rewrite Hc. eauto.
Qed.

(** X2. For a valid policy reference, the node pass completes exactly
    when the lookup of line 79 returns a non-empty sequence, the adapter
    resolves one kernel attribute, and all four lookups (the weights and
    activation transform functions and the two parameter-fitting functions)
    succeed for every option the mode reads: the whole list under mixed
    precision, the base config otherwise. *)
Theorem node_pass_succeeds_iff qc fw_info tpc mp node h :
  is_Some (h !! qc) ->
  (exists node' h',
      set_quantization_configs_to_node (QuantizationConfig := QuantizationConfig)
      get_weights_quantization_fn
      get_weights_quantization_params_fn get_activation_quantization_params_fn
      qc fw_info tpc mp (node, h) = (Ok tt, (node', h')))
  <-> (exists axis rest k,
         DefaultDict.get (FrameworkInfo.kernel_channels_mapping fw_info)
           (BaseNode.type node) = Some (axis :: rest)
         /\ FrameworkInfo.get_kernel_op_attributes fw_info (BaseNode.type node)
            = [k]
         /\ Forall (fun op_cfg =>
                      methods_known get_weights_quantization_fn
                        get_weights_quantization_params_fn
                        get_activation_quantization_params_fn
                        fw_info op_cfg k)
              (options_used mp (BaseNode.get_qco node tpc))).
Proof.
  intros Hqc. rewrite set_node_ok_iff.
  split; intros (axis & rest & k & H); exists axis, rest, k; tauto.
Qed.

(** X3. The order of the node pass's failures: a type mapped to an empty
    sequence raises [IndexError] at the subscript of line 79, and a type
    with a channel axis but not exactly one kernel attribute raises the
    assertion, in both cases whatever the options and methods are and with
    node and store as they were; and whatever the pass raises, the node
    object is left as it was. *)
Theorem node_pass_error_precedence qc fw_info tpc mp node h :
  (DefaultDict.get (FrameworkInfo.kernel_channels_mapping fw_info)
      (BaseNode.type node) = Some [] ->
   set_quantization_configs_to_node (QuantizationConfig := QuantizationConfig)
      get_weights_quantization_fn
      get_weights_quantization_params_fn get_activation_quantization_params_fn
      qc fw_info tpc mp (node, h) = (Raise IndexError, (node, h)))
  /\ (forall axis rest,
        DefaultDict.get (FrameworkInfo.kernel_channels_mapping fw_info)
      (BaseNode.type node)
          = Some (axis :: rest) ->
        length (FrameworkInfo.get_kernel_op_attributes fw_info (BaseNode.type node))
          <> 1%nat ->
        set_quantization_configs_to_node (QuantizationConfig := QuantizationConfig)
      get_weights_quantization_fn
      get_weights_quantization_params_fn get_activation_quantization_params_fn
      qc fw_info tpc mp (node, h) = (Raise AssertionError, (node, h)))
  /\ (forall e node' h',
        set_quantization_configs_to_node (QuantizationConfig := QuantizationConfig)
      get_weights_quantization_fn
      get_weights_quantization_params_fn get_activation_quantization_params_fn
      qc fw_info tpc mp (node, h) = (Raise e, (node', h')) ->
        node' = node
        /\ (e = TypeError \/ e = IndexError \/ e = AssertionError -> h' = h)).
Proof.
  split; [|split].
  - intros Hmap. unfold set_quantization_configs_to_node. by rewrite Hmap.
  - intros axis rest Hmap Hlen.
    unfold set_quantization_configs_to_node. rewrite Hmap.
    by rewrite (assertion _ _ _ _ _ _ _ Hlen).
  - intros e node' h' E. split; [by eapply set_node_raise_inv|].
    revert E. unfold set_quantization_configs_to_node.
    destruct (DefaultDict.get _ _) as [[|axis rest]|]; [by intros [= <- <- <-]| |by intros [= <- <- <-]].
    destruct (synth _ _ _ _ _ _ _) as [[cs|e0] h0] eqn:E; [done|].
    intros [= <- <- <-] He.
    apply synth_raise_inv in E
      as [(_ & _ & ->)|(k & _ & [(-> & _ & ->)|(i & op & new & _ & Hs & _)])];
      [done | done |].
    apply single_raise_class in Hs as [msg [Hs|Hs]]; subst e0;
      by destruct He as [?|[?|?]].
Qed.

(** X4. After a completed node pass every attached candidate carries, as
    its weights channel axis, the first element of the sequence the
    kernel-channel mapping has for the node's type. *)
Theorem weight_channel_axis_is_first qc fw_info tpc mp node h node' h' axis rest :
  set_quantization_configs_to_node (QuantizationConfig := QuantizationConfig)
      get_weights_quantization_fn
      get_weights_quantization_params_fn get_activation_quantization_params_fn
      qc fw_info tpc mp (node, h) = (Ok tt, (node', h')) ->
  DefaultDict.get (FrameworkInfo.kernel_channels_mapping fw_info)
      (BaseNode.type node)
    = Some (axis :: rest) ->
  forall c, c ∈ cands node' ->
    NodeWeightsQuantizationConfig.weights_channels_axis (w_cfg c) = axis.
Proof.
  intros (axis' & rest' & cs & Hmap & Hs & ->)%set_node_ok_inv Hmap'.
  assert (axis' = axis) as -> by congruence.
  intros c' (c & -> & Hc)%list_elem_of_fmap.
  destruct (sources _ _ _ _ _ _ _ _ _ c Hs Hc) as (k & l & op & _ & _ & Hsc).
  by apply single_ok_inv in Hsc
    as (wfn & wpfn & afn & apfn & _ & _ & _ & _ & ->).
Qed.

(** X5. After a completed node pass the functions bound in every attached
    candidate are the ones its own recorded methods select: the weights
    selector and the activation quantizer dict return the candidate's
    transform functions, and the two parameter selectors its
    parameter-fitting functions. *)
Theorem bound_functions_match_methods qc fw_info tpc mp node h node' h' :
  set_quantization_configs_to_node (QuantizationConfig := QuantizationConfig)
      get_weights_quantization_fn
      get_weights_quantization_params_fn get_activation_quantization_params_fn
      qc fw_info tpc mp (node, h) = (Ok tt, (node', h')) ->
  forall c, c ∈ cands node' ->
    get_weights_quantization_fn
      (NodeWeightsQuantizationConfig.weights_quantization_method (w_cfg c))
    = Selected
        (Some (NodeWeightsQuantizationConfig.weights_quantization_fn (w_cfg c)))
    /\ get_weights_quantization_params_fn
         (NodeWeightsQuantizationConfig.weights_quantization_method (w_cfg c))
       = Selected
           (NodeWeightsQuantizationConfig.weights_quantization_params_fn (w_cfg c))
    /\ FrameworkInfo.activation_quantizer_mapping fw_info
         !! NodeActivationQuantizationConfig.activation_quantization_method (a_cfg c)
       = Some (NodeActivationQuantizationConfig.activation_quantization_fn (a_cfg c))
    /\ get_activation_quantization_params_fn
         (NodeActivationQuantizationConfig.activation_quantization_method (a_cfg c))
       = Selected
           (NodeActivationQuantizationConfig.activation_quantization_params_fn
              (a_cfg c)).
Proof.
  intros (axis & rest & cs & Hmap & Hs & ->)%set_node_ok_inv.
  intros c' (c & -> & Hc)%list_elem_of_fmap.
  destruct (sources _ _ _ _ _ _ _ _ _ c Hs Hc) as (k & l & op & _ & _ & Hsc).
  by apply single_ok_inv in Hsc
    as (wfn & wpfn & afn & apfn & Hw & Hwp & Ha & Hap & ->).
Qed.

(** X6. Under mixed precision the attached list is ranked: a candidate at
    an earlier position has more weights bits than any later one, or as many
    and at least as many activation bits; position 0 is the highest
    precision and the last position the lowest. *)
Theorem candidates_ranked qc fw_info tpc node h node' h' :
  set_quantization_configs_to_node (QuantizationConfig := QuantizationConfig)
      get_weights_quantization_fn
      get_weights_quantization_params_fn get_activation_quantization_params_fn
      qc fw_info tpc true (node, h) = (Ok tt, (node', h')) ->
  forall i j a b,
    (i < j)%nat -> cands node' !! i = Some a -> cands node' !! j = Some b ->
    (sort_key a).1 > (sort_key b).1
    \/ ((sort_key a).1 = (sort_key b).1 /\ (sort_key a).2 >= (sort_key b).2).
Proof.
  intros (axis & rest & cs & Hmap & Hs & ->)%set_node_ok_inv.
  apply synth_ok_inv_mixed in Hs as (k & built & new & _ & -> & _).
  simpl.
  rewrite (sort_reverse_fmap sort_key (reconcile node fw_info)
             (sort_key_reconcile node fw_info)).
  intros i j a b Hij Ha Hb.
  pose proof (StronglySorted_lookup_lt (key_ge sort_key) _ i j a b
                (sort_reverse_sorted sort_key _) Hij Ha Hb) as Hge.
  unfold key_ge in Hge. by apply tuple_lt_false in Hge.
Qed.

Lemma reconcile_set_enable_flags node fw_info c w a :
  set_enable_flags w a (reconcile node fw_info c) = set_enable_flags w a c.
Proof. done. Qed.

(** X7. The reconciliation loop changes nothing of a candidate but its two
    enable flags, and never turns a flag on: position by position the
    attached candidate agrees with the synthesized one once the flags are
    overwritten, an attached flag that is set was set by synthesis, and a
    node that has weights to quantize and an activation carries the
    synthesized list unchanged. *)
Theorem reconciliation_changes_only_flags qc fw_info tpc mp node h node' h' :
  set_quantization_configs_to_node (QuantizationConfig := QuantizationConfig)
      get_weights_quantization_fn
      get_weights_quantization_params_fn get_activation_quantization_params_fn
      qc fw_info tpc mp (node, h) = (Ok tt, (node', h')) ->
  exists axis cs,
    _create_node_candidates_qc (QuantizationConfig := QuantizationConfig)
      get_weights_quantization_fn
      get_weights_quantization_params_fn get_activation_quantization_params_fn
      qc fw_info axis (BaseNode.get_qco node tpc) (BaseNode.type node) mp h
    = (Ok cs, h')
    /\ length (cands node') = length cs
    /\ (forall i c c',
          cs !! i = Some c -> cands node' !! i = Some c' ->
          (forall w a, set_enable_flags w a c' = set_enable_flags w a c)
          /\ (NodeWeightsQuantizationConfig.enable_weights_quantization (w_cfg c')
                = true ->
              NodeWeightsQuantizationConfig.enable_weights_quantization (w_cfg c)
                = true)
          /\ (NodeActivationQuantizationConfig.enable_activation_quantization
                (a_cfg c') = true ->
              NodeActivationQuantizationConfig.enable_activation_quantization
                (a_cfg c) = true))
    /\ (BaseNode.has_weights_to_quantize node fw_info = true ->
        BaseNode.get_has_activation node = true ->
        cands node' = cs).
Proof.
  intros (axis & rest & cs & Hmap & Hs & ->)%set_node_ok_inv.
  exists axis, cs. simpl. split; [done|]. split; [by rewrite length_fmap|]. split.
  - intros i c c' Hc Hc'. rewrite list_lookup_fmap, Hc in Hc'.
    injection Hc' as <-. split; [by intros; apply reconcile_set_enable_flags|].
    simpl. split; intros [? _]%andb_true_iff; done.
  - intros Hw Ha. rewrite <- (list_fmap_id cs) at 2.
    apply list_fmap_ext. intros i [[] []] _. unfold reconcile. simpl.
    by rewrite Hw, Ha, !andb_true_r.
Qed.

(** X10. The node pass overwrites: what was attached to the node before
    does not matter to what a completed pass attaches; and with mixed
    precision disabled, running the pass again on its own result changes
    neither the node nor the store. *)
Theorem node_pass_overwrites qc fw_info tpc mp node h node' h' :
  set_quantization_configs_to_node (QuantizationConfig := QuantizationConfig)
      get_weights_quantization_fn
      get_weights_quantization_params_fn get_activation_quantization_params_fn
      qc fw_info tpc mp (node, h) = (Ok tt, (node', h')) ->
  (forall cs0,
      set_quantization_configs_to_node (QuantizationConfig := QuantizationConfig)
      get_weights_quantization_fn
      get_weights_quantization_params_fn get_activation_quantization_params_fn
      qc fw_info tpc mp (BaseNode.set_candidates node cs0, h)
      = (Ok tt, (node', h')))
  /\ (mp = false ->
      set_quantization_configs_to_node (QuantizationConfig := QuantizationConfig)
      get_weights_quantization_fn
      get_weights_quantization_params_fn get_activation_quantization_params_fn
      qc fw_info tpc mp (node', h') = (Ok tt, (node', h'))).
Proof.
  intros E.
  assert (Hany : forall cs0,
            set_node qc fw_info tpc mp (BaseNode.set_candidates node cs0, h)
            = (Ok tt, (node', h'))).
  { intros cs0.
    apply set_node_ok_inv in E as (axis & rest & cs & Hmap & Hs & ->).
    unfold set_quantization_configs_to_node. simpl. rewrite Hmap, Hs.
    by rewrite reconcile_all_map. }
  split; [done|]. intros ->.
  pose proof E as (axis & rest & cs & Hmap & Hs & ->)%set_node_ok_inv.
  pose proof Hs as (k & c & _ & _ & _ & ->)%synth_ok_inv_single.
  apply Hany.
Qed.

(** *** The store and the graph pass *)

(** Objects appended to the store as copies of the policy do not change
    what the policy reference reads. *)
Lemma copies_keep_policy (h new : store) (qc : loc) (y : QuantizationConfig) :
  (forall x, x ∈ new -> h !! qc = Some x) ->
  (h ++ new) !! qc = Some y <-> h !! qc = Some y.
Proof.
  intros Hnew. destruct new as [|x new]; [by rewrite app_nil_r|].
  assert (Hx : h !! qc = Some x) by (apply Hnew; left).
  pose proof (lookup_lt_Some _ _ _ Hx). by rewrite lookup_app_l.
Qed.

Lemma copies_compose (h new1 new2 : store) (qc : loc) :
  (forall x, x ∈ new1 -> h !! qc = Some x) ->
  (forall x, x ∈ new2 -> (h ++ new1) !! qc = Some x) ->
  forall x, x ∈ new1 ++ new2 -> h !! qc = Some x.
Proof.
  intros H1 H2 x [Hx|Hx]%elem_of_app; [by apply H1|].
  apply (copies_keep_policy h new1 qc x H1). by apply H2.
Qed.

Lemma synth_store qc fw_info axis opts ty mp h o h' :
  synth qc fw_info axis opts ty mp h = (o, h') ->
  exists new,
    h' = h ++ new /\ (forall x, x ∈ new -> h !! qc = Some x)
    /\ (mp = false -> new = []).
Proof.
  assert (Hnil : exists new : store,
             h = h ++ new /\ (forall x, x ∈ new -> h !! qc = Some x)
             /\ (mp = false -> new = [])).
  { exists []. rewrite app_nil_r. split; [done|]. split; [|done].
    by intros x ?%elem_of_nil. }
  unfold _create_node_candidates_qc.
  destruct (FrameworkInfo.get_kernel_op_attributes fw_info ty) as [|k [|? ?]];
    [by intros [= <- <-] | | by intros [= <- <-]].
  destruct mp.
  - unfold bind at 1, ret.
    destruct (append _ _ _ _ _ _ _) as [[cs0|e0] h0] eqn:Ha; intros [= <- <-].
    + apply append_ok_inv in Ha as (built & new & _ & -> & _ & _ & Hnew & _).
      by exists new.
    + apply append_raise_inv in Ha
        as [(_ & _ & ->)|(i & op & new & _ & _ & _ & -> & _ & Hnew)]; [done|].
      by exists new.
  - unfold bind, lift, ret.
    by destruct (single _ _ _ _ _); intros [= <- <-].
Qed.

Lemma set_node_store qc fw_info tpc mp node h o node' h' :
  set_node qc fw_info tpc mp (node, h) = (o, (node', h')) ->
  exists new,
    h' = h ++ new /\ (forall x, x ∈ new -> h !! qc = Some x)
    /\ (mp = false -> new = []).
Proof.
  assert (Hnil : exists new : store,
             h = h ++ new /\ (forall x, x ∈ new -> h !! qc = Some x)
             /\ (mp = false -> new = [])).
  { exists []. rewrite app_nil_r. split; [done|]. split; [|done].
    by intros x ?%elem_of_nil. }
  unfold set_quantization_configs_to_node.
  destruct (DefaultDict.get (FrameworkInfo.kernel_channels_mapping fw_info)
      (BaseNode.type node))
    as [[|axis rest]|];
    [by intros [= <- <- <-] | | by intros [= <- <- <-]].
  destruct (synth _ _ _ _ _ _ _) as [[cs|e0] h0] eqn:E;
    intros [= <- <- <-]; by eapply synth_store.
Qed.

Lemma for_nodes_store qc fw_info tpc mp done todo h o ns h' :
  loop_nodes qc fw_info tpc mp done todo h = (o, (ns, h')) ->
  exists new,
    h' = h ++ new /\ (forall x, x ∈ new -> h !! qc = Some x)
    /\ (mp = false -> new = []).
Proof.
  revert done h. induction todo as [|n rest IH]; intros done h; cbn [for_nodes].
  - intros [= <- <- <-]. exists []. rewrite app_nil_r. split; [done|].
    split; [|done]. by intros x ?%elem_of_nil.
  - destruct (set_node qc fw_info tpc mp (n, h)) as [[[]|e] [n' h1]] eqn:E.
    + apply set_node_store in E as (new1 & -> & Hnew1 & Hmp1).
      intros (new2 & -> & Hnew2 & Hmp2)%IH.
      exists (new1 ++ new2). rewrite app_assoc. split; [done|]. split.
      * by apply copies_compose.
      * intros Hmp. by rewrite Hmp1, Hmp2.
    + intros [= <- <- <-]. by eapply set_node_store.
Qed.

(** X8. Whatever its outcome, the graph pass never writes an object that
    was in the store: the store it leaves is the one it was given followed
    by copies of the caller's policy, so the caller's policy object reads as
    before; with mixed precision disabled the store is left as it was. *)
Theorem graph_pass_preserves_store qc mp graph h o graph' h' :
  set_quantization_configuration_to_graph
      (QuantizationConfig := QuantizationConfig)
      get_weights_quantization_fn
      get_weights_quantization_params_fn get_activation_quantization_params_fn
      qc mp (graph, h) = (o, (graph', h')) ->
  exists new,
    h' = h ++ new
    /\ (forall x, x ∈ new -> h !! qc = Some x)
    /\ (forall l, (l < length h)%nat -> h' !! l = h !! l)
    /\ (mp = false -> h' = h).
Proof.
  unfold set_quantization_configuration_to_graph.
  destruct (loop_nodes qc (Graph.fw_info graph) (Graph.tpc graph) mp []
              (Graph.nodes graph) h) as [o0 [ns h0]] eqn:E.
  apply for_nodes_store in E as (new & -> & Hnew & Hmp).
  intros Heq. assert (h' = h ++ new) as ->.
  { by destruct o0 as [[]|e]; injection Heq as <- <- <-. }
  exists new. split; [done|]. split; [done|]. split.
  - intros l Hl. by rewrite lookup_app_l.
  - intros ->%Hmp. by rewrite app_nil_r.
Qed.

Lemma for_nodes_raise_inv qc fw_info tpc mp done todo h e ns h' :
  loop_nodes qc fw_info tpc mp done todo h = (Raise e, (ns, h')) ->
  exists i n hi pre,
    todo !! i = Some n
    /\ set_node qc fw_info tpc mp (n, hi) = (Raise e, (n, h'))
    /\ ns = done ++ pre ++ drop i todo /\ length pre = i
    /\ forall j m, (j < i)%nat -> todo !! j = Some m ->
         exists m' hj hj',
           pre !! j = Some m'
           /\ set_node qc fw_info tpc mp (m, hj) = (Ok tt, (m', hj')).
Proof.
  revert done h. induction todo as [|n rest IH]; intros visited h;
    cbn [for_nodes]; [discriminate|].
  destruct (set_node qc fw_info tpc mp (n, h)) as [[[]|e0] [n' h1]] eqn:E.
  - intros (i & m & hi & pre & Hm & Hrun & -> & Hlen & Hpre)%IH.
    exists (S i), m, hi, (n' :: pre). simpl. rewrite <- app_assoc. simpl.
    split; [done|]. split; [done|]. split; [done|]. split; [lia|].
    intros [|j] m0 Hj Hm0; simpl in *.
    + injection Hm0 as <-. by exists n', h, h1.
    + apply Hpre; [lia|done].
  - intros [= <- <- <-].
    pose proof E as ->%set_node_raise_inv.
    exists 0%nat, n, h, []. simpl. split; [done|]. split; [done|].
    split; [done|]. split; [done|]. intros; lia.
Qed.

(** X9. A raise stops the graph pass at the first node that fails: it is
    that node's exception that leaves the pass, that node and all later ones
    are as they were, and the earlier nodes keep the candidates their own
    passes attached. *)
Theorem graph_pass_stops_at_first_failure qc mp graph h e graph' h' :
  set_quantization_configuration_to_graph
      (QuantizationConfig := QuantizationConfig)
      get_weights_quantization_fn
      get_weights_quantization_params_fn get_activation_quantization_params_fn
      qc mp (graph, h) = (Raise e, (graph', h')) ->
  exists i n hi,
    Graph.nodes graph !! i = Some n
    /\ set_quantization_configs_to_node (QuantizationConfig := QuantizationConfig)
      get_weights_quantization_fn
      get_weights_quantization_params_fn get_activation_quantization_params_fn
      qc (Graph.fw_info graph) (Graph.tpc graph) mp (n, hi)
       = (Raise e, (n, h'))
    /\ Graph.fw_info graph' = Graph.fw_info graph
    /\ Graph.tpc graph' = Graph.tpc graph
    /\ length (Graph.nodes graph') = length (Graph.nodes graph)
    /\ (forall j m, (i <= j)%nat -> Graph.nodes graph !! j = Some m ->
          Graph.nodes graph' !! j = Some m)
    /\ (forall j m, (j < i)%nat -> Graph.nodes graph !! j = Some m ->
          exists m' hj hj',
            Graph.nodes graph' !! j = Some m'
            /\ set_quantization_configs_to_node (QuantizationConfig := QuantizationConfig)
      get_weights_quantization_fn
      get_weights_quantization_params_fn get_activation_quantization_params_fn
      qc (Graph.fw_info graph) (Graph.tpc graph) mp (m, hj)
               = (Ok tt, (m', hj'))).
Proof.
  unfold set_quantization_configuration_to_graph.
  destruct (loop_nodes qc (Graph.fw_info graph) (Graph.tpc graph) mp []
              (Graph.nodes graph) h) as [[[]|e0] [ns h0]] eqn:E; [done|].
  intros [= <- <- <-].
  apply for_nodes_raise_inv in E as (i & n & hi & pre & Hn & Hrun & -> & Hlen & Hpre).
  pose proof (lookup_lt_Some _ _ _ Hn) as Hi.
  exists i, n, hi. simpl.
  split; [done|]. split; [done|]. split; [done|]. split; [done|]. split.
  { rewrite length_app, length_drop. lia. }
  split.
  - intros j m Hij Hm. rewrite lookup_app_r by lia. rewrite lookup_drop.
    by replace (i + (j - length pre))%nat with j by lia.
  - intros j m Hji Hm. destruct (Hpre j m Hji Hm) as (m' & hj & hj' & Hm' & Hr).
    exists m', hj, hj'. split; [|done]. by apply lookup_app_l_Some.
Qed.

(** X11. A completed graph pass returns the graph with its framework
    info and capabilities as they were, and every node as it was but for the
    attached candidate list. *)
Theorem graph_pass_changes_only_candidates qc mp graph h graph' s' :
  set_quantization_configuration_to_graph
      (QuantizationConfig := QuantizationConfig)
      get_weights_quantization_fn
      get_weights_quantization_params_fn get_activation_quantization_params_fn
      qc mp (graph, h) = (Ok graph', s') ->
  Graph.fw_info graph' = Graph.fw_info graph
  /\ Graph.tpc graph' = Graph.tpc graph
  /\ forall i n,
       Graph.nodes graph !! i = Some n ->
       exists cs, Graph.nodes graph' !! i = Some (BaseNode.set_candidates n cs).
Proof.
  unfold set_quantization_configuration_to_graph.
  destruct (loop_nodes qc (Graph.fw_info graph) (Graph.tpc graph) mp []
              (Graph.nodes graph) h) as [[[]|e0] [ns h0]] eqn:E; [|done].
  intros [= <- <-]. simpl. split; [done|]. split; [done|].
  apply for_nodes_ok_inv in E as (todo' & -> & _ & Hall).
  intros i n Hn. destruct (Hall i n Hn) as (n' & hi & hi' & Hn' & Hrun).
  apply set_node_ok_inv in Hrun as (axis & rest & cs & _ & _ & ->).
  by exists (reconcile n (Graph.fw_info graph) <$> cs).
Qed.

Lemma set_node_ok_transfer qc fw_info tpc mp node (h new : store) :
  (forall x, x ∈ new -> h !! qc = Some x) ->
  (exists node' h',
      set_node qc fw_info tpc mp (node, h ++ new) = (Ok tt, (node', h')))
  <-> (exists node' h',
         set_node qc fw_info tpc mp (node, h) = (Ok tt, (node', h'))).
Proof.
  intros Hnew. rewrite !set_node_ok_iff.
  assert (Hsome : is_Some ((h ++ new) !! qc) <-> is_Some (h !! qc)).
  { unfold is_Some. split; intros [x Hx]; exists x;
      by apply (copies_keep_policy h new qc x Hnew). }
  split; intros (axis & rest & k & Hmap & Hk & Hknown & Hqc);
    exists axis, rest, k; (split; [done|]); (split; [done|]); (split; [done|]);
    intros Hmp Hne; apply Hsome; by apply Hqc.
Qed.

Lemma for_nodes_ok_all qc fw_info tpc mp todo visited (h new : store) :
  (forall x, x ∈ new -> h !! qc = Some x) ->
  (forall n, n ∈ todo ->
     exists n' h', set_node qc fw_info tpc mp (n, h) = (Ok tt, (n', h'))) ->
  exists ns h',
    loop_nodes qc fw_info tpc mp visited todo (h ++ new) = (Ok tt, (ns, h')).
Proof.
  revert visited new. induction todo as [|n rest IH]; intros visited new Hnew Hall;
    cbn [for_nodes]; [by eauto|].
  destruct (proj2 (set_node_ok_transfer qc fw_info tpc mp n h new Hnew))
    as (n' & h1 & Hrun); [apply Hall; left|].
  rewrite Hrun.
  pose proof Hrun as (new1 & -> & Hnew1 & _)%set_node_store.
  rewrite <- app_assoc. apply IH.
  - by apply copies_compose.
  - intros m Hm. apply Hall. by right.
Qed.

Lemma for_nodes_ok_each qc fw_info tpc mp todo visited (h new : store) ns h' :
  (forall x, x ∈ new -> h !! qc = Some x) ->
  loop_nodes qc fw_info tpc mp visited todo (h ++ new) = (Ok tt, (ns, h')) ->
  forall n, n ∈ todo ->
    exists n' h1, set_node qc fw_info tpc mp (n, h) = (Ok tt, (n', h1)).
Proof.
  revert visited new. induction todo as [|n rest IH]; intros visited new Hnew;
    cbn [for_nodes]; [by intros _ m ?%elem_of_nil|].
  destruct (set_node qc fw_info tpc mp (n, h ++ new)) as [[[]|e] [n' h1]] eqn:E;
    [|discriminate].
  pose proof E as (new1 & -> & Hnew1 & _)%set_node_store.
  rewrite <- app_assoc. intros Hloop m [->|Hm]%elem_of_cons.
  - apply (set_node_ok_transfer qc fw_info tpc mp n h new Hnew). eauto.
  - eapply IH; [|exact Hloop|exact Hm]. by apply copies_compose.
Qed.

(** X13. The graph pass completes exactly when the node pass of every
    node of the graph, run on its own from the initial store, completes: no
    node's success depends on the nodes visited before it. *)
Theorem graph_pass_succeeds_iff qc mp graph h :
  (exists graph' s', set_quantization_configuration_to_graph
      (QuantizationConfig := QuantizationConfig)
      get_weights_quantization_fn
      get_weights_quantization_params_fn get_activation_quantization_params_fn
      qc mp (graph, h) = (Ok graph', s'))
  <-> (forall n, n ∈ Graph.nodes graph ->
         exists n' h',
           set_quantization_configs_to_node (QuantizationConfig := QuantizationConfig)
      get_weights_quantization_fn
      get_weights_quantization_params_fn get_activation_quantization_params_fn
      qc (Graph.fw_info graph) (Graph.tpc graph) mp (n, h)
           = (Ok tt, (n', h'))).
Proof.
  assert (Hnil : forall x : QuantizationConfig, x ∈ [] -> h !! qc = Some x)
    by (by intros x ?%elem_of_nil).
  unfold set_quantization_configuration_to_graph. split.
  - intros (graph' & s' & E).
    destruct (loop_nodes qc (Graph.fw_info graph) (Graph.tpc graph) mp []
                (Graph.nodes graph) h) as [[[]|e0] [ns h0]] eqn:El; [|done].
    apply (for_nodes_ok_each qc _ _ mp (Graph.nodes graph) [] h [] ns h0 Hnil).
    by rewrite app_nil_r.
  - intros Hall.
    destruct (for_nodes_ok_all qc (Graph.fw_info graph) (Graph.tpc graph) mp
                (Graph.nodes graph) [] h [] Hnil Hall) as (ns & h' & El).
    rewrite app_nil_r in El. rewrite El. eauto.
Qed.

Lemma set_node_policy_range qc fw_info tpc node h node' h' :
  set_node qc fw_info tpc true (node, h) = (Ok tt, (node', h')) ->
  (length h <= length h')%nat
  /\ ((qc < length h')%nat -> (qc < length h)%nat)
  /\ NoDup ((fun c => policy_of c) <$> cands node')
  /\ forall c, c ∈ cands node' ->
       (qc < length h <= policy_of c)%nat /\ (policy_of c < length h')%nat.
Proof.
  intros (axis & rest & cs & Hmap & Hs & ->)%set_node_ok_inv. simpl.
  destruct (synth_mixed_policies _ _ _ _ _ _ _ _ _ _ _ Hs)
    as (new & -> & Hnew & Hperm).
  assert (Hmap' : (fun c => policy_of c) <$> (reconcile node fw_info <$> cs)
                  = (fun c => policy_of c) <$> cs).
  { rewrite <- list_fmap_compose. by apply list_fmap_ext. }
  rewrite Hmap', length_app. split; [lia|]. split.
  { destruct new as [|x new]; [simpl; lia|]. intros _.
    assert (Hx : h !! qc = Some x) by (apply Hnew; left).
    by apply lookup_lt_Some in Hx. }
  split.
  { rewrite Hperm. apply NoDup_seq. }
  intros c' (c & -> & Hc)%list_elem_of_fmap. simpl.
  assert (Hin : policy_of c ∈ seq (length h) (length new)).
  { rewrite <- Hperm. apply list_elem_of_fmap. by exists c. }
  apply elem_of_seq in Hin.
  destruct new as [|x new]; [simpl in Hin; lia|].
  assert (Hx : h !! qc = Some x) by (apply Hnew; left).
  apply lookup_lt_Some in Hx. lia.
Qed.

Lemma for_nodes_policies qc fw_info tpc visited todo h ns h' :
  loop_nodes qc fw_info tpc true visited todo h = (Ok tt, (ns, h')) ->
  exists todo',
    ns = visited ++ todo' /\ (length h <= length h')%nat
    /\ (forall i n' c, todo' !! i = Some n' -> c ∈ cands n' ->
          (qc < length h <= policy_of c)%nat /\ (policy_of c < length h')%nat)
    /\ (forall i n', todo' !! i = Some n' ->
          NoDup ((fun c => policy_of c) <$> cands n'))
    /\ (forall i j ni nj ci cj,
          (i < j)%nat -> todo' !! i = Some ni -> todo' !! j = Some nj ->
          ci ∈ cands ni -> cj ∈ cands nj ->
          (policy_of ci < policy_of cj)%nat).
Proof.
  revert visited h. induction todo as [|n rest IH]; intros visited h;
    cbn [for_nodes].
  - intros [= <- <-]. exists []. rewrite app_nil_r.
    split; [done|]. split; [lia|]. by repeat split.
  - destruct (set_node qc fw_info tpc true (n, h)) as [[[]|e] [n' h1]] eqn:E;
      [|discriminate].
    apply set_node_policy_range in E as (Hlen1 & Hqc1 & Hnd1 & Hrange1).
    intros (todo' & -> & Hlen & Hrange & Hnd & Hlt)%IH.
    exists (n' :: todo'). rewrite <- app_assoc. simpl.
    split; [done|]. split; [lia|]. split; [|split].
    + intros [|i] m c Hm Hc; simpl in *.
      * injection Hm as <-. destruct (Hrange1 c Hc). lia.
      * destruct (Hrange i m c Hm Hc). lia.
    + intros [|i] m Hm; simpl in *; [by injection Hm as <-|by eapply Hnd].
    + intros [|i] [|j] ni nj ci cj Hij Hi Hj Hci Hcj; simpl in *; try lia.
      * injection Hi as <-. destruct (Hrange1 ci Hci).
        destruct (Hrange j nj cj Hj Hcj). lia.
      * apply (Hlt i j ni nj); [lia|done..].
Qed.

(** X12. After a completed graph pass under mixed precision no two
    candidates anywhere in the graph hold the same policy object, and none
    holds the caller's: each was given an object added to the store during
    the pass. *)
Theorem graph_wide_policies_distinct qc graph h graph' s' :
  set_quantization_configuration_to_graph
      (QuantizationConfig := QuantizationConfig)
      get_weights_quantization_fn
      get_weights_quantization_params_fn get_activation_quantization_params_fn
      qc true (graph, h) = (Ok graph', s') ->
  (forall i j ni nj p q ci cj,
      Graph.nodes graph' !! i = Some ni -> Graph.nodes graph' !! j = Some nj ->
      cands ni !! p = Some ci -> cands nj !! q = Some cj ->
      NodeWeightsQuantizationConfig.qc (w_cfg ci)
      = NodeWeightsQuantizationConfig.qc (w_cfg cj) ->
      i = j /\ p = q)
  /\ (forall i ni c,
        Graph.nodes graph' !! i = Some ni -> c ∈ cands ni ->
        (qc < length h <= NodeWeightsQuantizationConfig.qc (w_cfg c))%nat
        /\ (NodeWeightsQuantizationConfig.qc (w_cfg c) < length s'.2)%nat).
Proof.
  unfold set_quantization_configuration_to_graph.
  destruct (loop_nodes qc (Graph.fw_info graph) (Graph.tpc graph) true []
              (Graph.nodes graph) h) as [[[]|e0] [ns h0]] eqn:E; [|done].
  intros [= <- <-]. simpl.
  apply for_nodes_policies in E as (todo' & -> & _ & Hrange & Hnd & Hlt).
  simpl. split; [|by apply Hrange].
  intros i j ni nj p q ci cj Hi Hj Hp Hq Heq.
  assert (Hci : ci ∈ cands ni) by by eapply list_elem_of_lookup_2.
  assert (Hcj : cj ∈ cands nj) by by eapply list_elem_of_lookup_2.
  destruct (Nat.lt_trichotomy i j) as [Hij|[->|Hji]].
  - pose proof (Hlt i j ni nj ci cj Hij Hi Hj Hci Hcj). lia.
  - assert (ni = nj) as -> by congruence. split; [done|].
    eapply NoDup_lookup; [exact (Hnd j nj Hj) | |].
    + rewrite list_lookup_fmap, Hp. reflexivity.
    + rewrite list_lookup_fmap, Hq. simpl. by rewrite Heq.
  - pose proof (Hlt j i nj ni cj ci Hji Hj Hi Hcj Hci). lia.
Qed.

Lemma for_nodes_copy_count qc fw_info tpc visited todo h ns h' :
  loop_nodes qc fw_info tpc true visited todo h = (Ok tt, (ns, h')) ->
  length h'
  = (length h
     + sum_list_with
         (fun n => length (config_list (BaseNode.get_qco n tpc))) todo)%nat.
Proof.
  revert visited h. induction todo as [|n rest IH]; intros visited h;
    cbn [for_nodes].
  - intros [= <- <-]. simpl. lia.
  - destruct (set_node qc fw_info tpc true (n, h)) as [[[]|e] [n' h1]] eqn:E;
      [|discriminate].
    apply set_node_ok_inv in E as (axis & rest' & cs & _ & Hs & _).
    apply synth_ok_inv_mixed in Hs as (k & built & new & _ & _ & -> & _ & Hn & _).
    intros ->%IH. rewrite length_app, Hn. simpl. lia.
Qed.

(** X14. A completed graph pass under mixed precision makes one deep copy
    of the policy per option of every node: the store grows by the total
    number of entries of the nodes' [quantization_config_list]s. *)
Theorem graph_pass_copy_count qc graph h graph' s' :
  set_quantization_configuration_to_graph
      (QuantizationConfig := QuantizationConfig)
      get_weights_quantization_fn
      get_weights_quantization_params_fn get_activation_quantization_params_fn
      qc true (graph, h) = (Ok graph', s') ->
  length s'.2
  = (length h
     + sum_list_with
         (fun n => length (QuantizationConfigOptions.quantization_config_list
                             (BaseNode.get_qco n (Graph.tpc graph))))
         (Graph.nodes graph))%nat.
Proof.
  unfold set_quantization_configuration_to_graph.
  destruct (loop_nodes qc (Graph.fw_info graph) (Graph.tpc graph) true []
              (Graph.nodes graph) h) as [[[]|e0] [ns h0]] eqn:E; [|done].
  intros [= <- <-]. simpl. by eapply for_nodes_copy_count.
Qed.

End Extras.

(** ** The further properties at concrete inputs *)

Lemma create_node_activation_qc_agrees_witness :
  (is_Some (FrameworkInfo.activation_quantizer_mapping Examples.fw !! "KMEANS")
   /\ Examples.activation_params_fn "KMEANS"
      = NoSelection "No params function for quantization method KMEANS")
  /\ create_node_activation_qc Examples.activation_params_fn 0%nat Examples.fw
       (Examples.op_with "POWER_OF_TWO" "KMEANS" 4 8)
     = Raise (SelectionError "No params function for quantization method KMEANS").
Proof.
  assert (H1 : is_Some (FrameworkInfo.activation_quantizer_mapping Examples.fw
                          !! "KMEANS")) by (eexists; by vm_compute).
  assert (H2 : Examples.activation_params_fn "KMEANS"
               = NoSelection "No params function for quantization method KMEANS")
    by (by vm_compute).
  split; [by split|].
  exact (proj1 (proj2 (proj2 (create_node_activation_qc_agrees
                                Examples.weights_fn Examples.weights_params_fn
                                Examples.activation_params_fn 0%nat Examples.fw
                                (Some 3)
                                (Examples.op_with "POWER_OF_TWO" "KMEANS" 4 8)
                                "kernel"))) _ H1 H2).
Defined.

Lemma node_pass_succeeds_iff_witness :
  is_Some (Examples.h0 !! 0%nat)
  /\ exists node' h',
       Examples.run_node Examples.conv true = (Ok tt, (node', h')).
Proof.
  assert (Hqc : is_Some (Examples.h0 !! 0%nat)) by (by exists "policy").
  split; [exact Hqc|].
  apply (proj2 (node_pass_succeeds_iff (QuantizationConfig := Examples.policy)
                  Examples.weights_fn Examples.weights_params_fn
                  Examples.activation_params_fn
                  0%nat Examples.fw Examples.tpc true Examples.conv Examples.h0
                  Hqc)).
  exists (Some 3), [Some 2], "kernel".
  split; [by vm_compute|]. split; [by vm_compute|].
  repeat (apply List.Forall_cons;
          [repeat split; eexists; vm_compute; reflexivity|]).
  apply List.Forall_nil.
Defined.

Lemma node_pass_error_precedence_witness :
  DefaultDict.get (FrameworkInfo.kernel_channels_mapping Examples.fw)
      ("Flatten") = Some []
  /\ Examples.run_node
       (Examples.node_of "Flatten" Examples.options_bogus_weights true true) true
     = (Raise IndexError,
        (Examples.node_of "Flatten" Examples.options_bogus_weights true true,
         Examples.h0)).
Proof.
  assert (H : DefaultDict.get (FrameworkInfo.kernel_channels_mapping Examples.fw)
      ("Flatten")
              = Some []) by (by vm_compute).
  split; [exact H|].
  exact (proj1 (node_pass_error_precedence (QuantizationConfig := Examples.policy)
                  Examples.weights_fn Examples.weights_params_fn
                  Examples.activation_params_fn
                  0%nat Examples.fw Examples.tpc true
                  (Examples.node_of "Flatten" Examples.options_bogus_weights
                     true true) Examples.h0) H).
Defined.

Lemma weight_channel_axis_is_first_witness :
  Examples.run_node Examples.conv true
  = (Ok tt, (Examples.run_node Examples.conv true).2)
  /\ forall c,
       c ∈ BaseNode.candidates_quantization_cfg
             (Examples.run_node Examples.conv true).2.1 ->
       NodeWeightsQuantizationConfig.weights_channels_axis
         (CandidateNodeQuantizationConfig.weights_quantization_cfg c) = Some 3.
Proof.
  split; [by vm_compute|].
  apply (weight_channel_axis_is_first (QuantizationConfig := Examples.policy)
           Examples.weights_fn Examples.weights_params_fn
           Examples.activation_params_fn
           0%nat Examples.fw Examples.tpc true Examples.conv Examples.h0
           (Examples.run_node Examples.conv true).2.1
           (Examples.run_node Examples.conv true).2.2 (Some 3) [Some 2]);
    by vm_compute.
Defined.

Lemma bound_functions_match_methods_witness :
  Examples.run_node Examples.conv_ties true
  = (Ok tt, (Examples.run_node Examples.conv_ties true).2)
  /\ forall c,
       c ∈ BaseNode.candidates_quantization_cfg
             (Examples.run_node Examples.conv_ties true).2.1 ->
       Examples.weights_fn
         (NodeWeightsQuantizationConfig.weights_quantization_method
            (CandidateNodeQuantizationConfig.weights_quantization_cfg c))
       = Selected
           (Some (NodeWeightsQuantizationConfig.weights_quantization_fn
                    (CandidateNodeQuantizationConfig.weights_quantization_cfg c))).
Proof.
  split; [by vm_compute|].
  intros c Hc.
  apply (bound_functions_match_methods (QuantizationConfig := Examples.policy)
           Examples.weights_fn Examples.weights_params_fn
           Examples.activation_params_fn
           0%nat Examples.fw Examples.tpc true Examples.conv_ties Examples.h0
           (Examples.run_node Examples.conv_ties true).2.1
           (Examples.run_node Examples.conv_ties true).2.2);
    [by vm_compute | exact Hc].
Defined.

Lemma candidates_ranked_witness :
  Examples.run_node Examples.conv true
  = (Ok tt, (Examples.run_node Examples.conv true).2)
  /\ forall i j a b,
       (i < j)%nat ->
       BaseNode.candidates_quantization_cfg
         (Examples.run_node Examples.conv true).2.1 !! i = Some a ->
       BaseNode.candidates_quantization_cfg
         (Examples.run_node Examples.conv true).2.1 !! j = Some b ->
       (sort_key a).1 > (sort_key b).1
       \/ ((sort_key a).1 = (sort_key b).1 /\ (sort_key a).2 >= (sort_key b).2).
Proof.
  split; [by vm_compute|].
  apply (candidates_ranked (QuantizationConfig := Examples.policy)
           Examples.weights_fn Examples.weights_params_fn
           Examples.activation_params_fn
           0%nat Examples.fw Examples.tpc Examples.conv Examples.h0
           (Examples.run_node Examples.conv true).2.1
           (Examples.run_node Examples.conv true).2.2).
  by vm_compute.
Defined.

Lemma reconciliation_changes_only_flags_witness :
  Examples.run_node Examples.relu true
  = (Ok tt, (Examples.run_node Examples.relu true).2)
  /\ exists cs,
       length (BaseNode.candidates_quantization_cfg
                 (Examples.run_node Examples.relu true).2.1) = length cs
       /\ forall i c c',
            cs !! i = Some c ->
            BaseNode.candidates_quantization_cfg
              (Examples.run_node Examples.relu true).2.1 !! i = Some c' ->
            forall w a, set_enable_flags w a c' = set_enable_flags w a c.
Proof.
  split; [by vm_compute|].
  destruct (reconciliation_changes_only_flags (QuantizationConfig := Examples.policy)
              Examples.weights_fn Examples.weights_params_fn
              Examples.activation_params_fn
              0%nat Examples.fw Examples.tpc true Examples.relu Examples.h0
              (Examples.run_node Examples.relu true).2.1
              (Examples.run_node Examples.relu true).2.2)
    as (axis & cs & _ & Hlen & Hsame & _); [by vm_compute|].
  exists cs. split; [exact Hlen|].
  intros i c c' Hc Hc'. exact (proj1 (Hsame i c c' Hc Hc')).
Defined.

Lemma node_pass_overwrites_witness :
  Examples.run_node Examples.conv false
  = (Ok tt, (Examples.run_node Examples.conv false).2)
  /\ set_quantization_configs_to_node (QuantizationConfig := Examples.policy)
       Examples.weights_fn Examples.weights_params_fn
       Examples.activation_params_fn 0%nat Examples.fw Examples.tpc false
       (Examples.run_node Examples.conv false).2
     = (Ok tt, (Examples.run_node Examples.conv false).2).
Proof.
  split; [by vm_compute|].
  destruct (node_pass_overwrites (QuantizationConfig := Examples.policy)
              Examples.weights_fn Examples.weights_params_fn
              Examples.activation_params_fn
              0%nat Examples.fw Examples.tpc false Examples.conv Examples.h0
              (Examples.run_node Examples.conv false).2.1
              (Examples.run_node Examples.conv false).2.2)
    as [_ Hagain]; [by vm_compute|].
  exact (Hagain eq_refl).
Defined.

Lemma graph_pass_preserves_store_witness :
  Examples.run_graph [Examples.conv; Examples.conv_bogus_weights] true
  = ((Examples.run_graph [Examples.conv; Examples.conv_bogus_weights] true).1,
     (Examples.run_graph [Examples.conv; Examples.conv_bogus_weights] true).2)
  /\ forall l,
       (l < length Examples.h0)%nat ->
       (Examples.run_graph [Examples.conv; Examples.conv_bogus_weights] true).2.2
         !! l = Examples.h0 !! l.
Proof.
  split; [by vm_compute|].
  destruct (graph_pass_preserves_store (QuantizationConfig := Examples.policy)
              Examples.weights_fn Examples.weights_params_fn
              Examples.activation_params_fn 0%nat true
              (Examples.graph_of [Examples.conv; Examples.conv_bogus_weights])
              Examples.h0
              (Examples.run_graph [Examples.conv; Examples.conv_bogus_weights] true).1
              (Examples.run_graph [Examples.conv; Examples.conv_bogus_weights] true).2.1
              (Examples.run_graph [Examples.conv; Examples.conv_bogus_weights] true).2.2)
    as (new & _ & _ & Hold & _); [by vm_compute|].
  exact Hold.
Defined.

Lemma graph_pass_stops_at_first_failure_witness :
  (exists e graph' h',
      Examples.run_graph
        [Examples.conv; Examples.conv_bogus_activation; Examples.relu] true
      = (Raise e, (graph', h')))
  /\ Graph.nodes
       (Examples.run_graph
          [Examples.conv; Examples.conv_bogus_activation; Examples.relu] true).2.1
       !! 2%nat = Some Examples.relu.
Proof.
  assert (H : Examples.run_graph
                [Examples.conv; Examples.conv_bogus_activation; Examples.relu] true
              = (Raise (CriticalError activations_message),
                 (Examples.run_graph
                    [Examples.conv; Examples.conv_bogus_activation; Examples.relu]
                    true).2)) by (by vm_compute).
  split; [by eauto|].
  destruct (graph_pass_stops_at_first_failure (QuantizationConfig := Examples.policy)
              Examples.weights_fn Examples.weights_params_fn
              Examples.activation_params_fn 0%nat true
              (Examples.graph_of
                 [Examples.conv; Examples.conv_bogus_activation; Examples.relu])
              Examples.h0 _ _ _ H)
    as (i & n & hi & Hn & Hrun & _ & _ & _ & Hlater & Hearlier).
  assert (Hi : (i <= 2)%nat) by (apply lookup_lt_Some in Hn; simpl in Hn; lia).
  by apply Hlater.
Defined.

Lemma graph_pass_changes_only_candidates_witness :
  Examples.run_graph [Examples.conv; Examples.relu] true
  = (Ok (Examples.run_graph [Examples.conv; Examples.relu] true).2.1,
     (Examples.run_graph [Examples.conv; Examples.relu] true).2)
  /\ exists cs,
       Graph.nodes (Examples.run_graph [Examples.conv; Examples.relu] true).2.1
         !! 1%nat = Some (BaseNode.set_candidates Examples.relu cs).
Proof.
  split; [by vm_compute|].
  destruct (graph_pass_changes_only_candidates (QuantizationConfig := Examples.policy)
              Examples.weights_fn Examples.weights_params_fn
              Examples.activation_params_fn 0%nat true
              (Examples.graph_of [Examples.conv; Examples.relu]) Examples.h0
              (Examples.run_graph [Examples.conv; Examples.relu] true).2.1
              (Examples.run_graph [Examples.conv; Examples.relu] true).2)
    as (_ & _ & Hnodes); [by vm_compute|].
  exact (Hnodes 1%nat Examples.relu eq_refl).
Defined.

Lemma graph_wide_policies_distinct_witness :
  Examples.run_graph [Examples.conv; Examples.conv_ties] true
  = (Ok (Examples.run_graph [Examples.conv; Examples.conv_ties] true).2.1,
     (Examples.run_graph [Examples.conv; Examples.conv_ties] true).2)
  /\ forall i j ni nj p q ci cj,
       Graph.nodes (Examples.run_graph [Examples.conv; Examples.conv_ties] true).2.1
         !! i = Some ni ->
       Graph.nodes (Examples.run_graph [Examples.conv; Examples.conv_ties] true).2.1
         !! j = Some nj ->
       BaseNode.candidates_quantization_cfg ni !! p = Some ci ->
       BaseNode.candidates_quantization_cfg nj !! q = Some cj ->
       NodeWeightsQuantizationConfig.qc
         (CandidateNodeQuantizationConfig.weights_quantization_cfg ci)
       = NodeWeightsQuantizationConfig.qc
           (CandidateNodeQuantizationConfig.weights_quantization_cfg cj) ->
       i = j /\ p = q.
Proof.
  split; [by vm_compute|].
  apply (graph_wide_policies_distinct (QuantizationConfig := Examples.policy)
           Examples.weights_fn Examples.weights_params_fn
           Examples.activation_params_fn 0%nat
           (Examples.graph_of [Examples.conv; Examples.conv_ties]) Examples.h0
           (Examples.run_graph [Examples.conv; Examples.conv_ties] true).2.1
           (Examples.run_graph [Examples.conv; Examples.conv_ties] true).2).
  by vm_compute.
Defined.

Lemma graph_pass_succeeds_iff_witness :
  (exists graph' s',
      Examples.run_graph [Examples.conv; Examples.relu] false = (Ok graph', s'))
  /\ forall n,
       n ∈ [Examples.conv; Examples.relu] ->
       exists n' h', Examples.run_node n false = (Ok tt, (n', h')).
Proof.
  assert (H : exists graph' s',
            Examples.run_graph [Examples.conv; Examples.relu] false
            = (Ok graph', s')) by (eexists _, _; by vm_compute).
  split; [exact H|].
  exact (proj1 (graph_pass_succeeds_iff (QuantizationConfig := Examples.policy)
                  Examples.weights_fn Examples.weights_params_fn
                  Examples.activation_params_fn 0%nat false
                  (Examples.graph_of [Examples.conv; Examples.relu]) Examples.h0)
           H).
Defined.

Lemma graph_pass_copy_count_witness :
  Examples.run_graph [Examples.conv; Examples.relu; Examples.conv_ties] true
  = (Ok (Examples.run_graph
           [Examples.conv; Examples.relu; Examples.conv_ties] true).2.1,
     (Examples.run_graph [Examples.conv; Examples.relu; Examples.conv_ties] true).2)
  /\ length (Examples.run_graph
               [Examples.conv; Examples.relu; Examples.conv_ties] true).2.2
     = 12%nat.
Proof.
  split; [by vm_compute|].
  apply (graph_pass_copy_count (QuantizationConfig := Examples.policy)
           Examples.weights_fn Examples.weights_params_fn
           Examples.activation_params_fn 0%nat
           (Examples.graph_of [Examples.conv; Examples.relu; Examples.conv_ties])
           Examples.h0
           (Examples.run_graph
              [Examples.conv; Examples.relu; Examples.conv_ties] true).2.1
           (Examples.run_graph
              [Examples.conv; Examples.relu; Examples.conv_ties] true).2).
  by vm_compute.
Defined.
